(** * News parser (app.py): a shallow embedding and its verified properties

    The development follows [src/app.py]: [fetch_page], [detect_news_links],
    [parse_news_content], [process_site] and the [parse_news] endpoint.

    Python values are modelled as follows.
    - A [str] is a list of Unicode code points, so that [len] counts
      characters as Python does (the source contains Cyrillic literals).
    - The libraries the program calls (the Unicode database behind
      [str.lower], [str.isdigit] and [\d]; [urllib.parse]; [requests]; the
      lxml tree builder) are an interface, the class [Runtime]; the iteration
      order of a Python [set] is another one, [HashOrder].
    - A BeautifulSoup document is a tree of [node]s; a reference to a tag
      that the program keeps while it mutates the tree is a path.
    - Exceptions are the [Raise] outcome of the [may_raise] monad. *)

From Stdlib Require Import List NArith ZArith Bool Ascii String Lia Permutation.
Import ListNotations.
Local Open Scope string_scope.
Local Open Scope list_scope.

Set Implicit Arguments.
Set Warnings "-register-all".

(* ================================================================= *)
(** ** Python strings *)

Module Py.

(** A Python [str]: the sequence of its code points. *)
Definition str := list N.

(** Decoding of the UTF-8 bytes of a literal of this file. *)
Fixpoint utf8 (bs : list N) : str :=
  match bs with
  | [] => []
  | b0 :: r0 =>
      if (b0 <? 128)%N then b0 :: utf8 r0
      else if (b0 <? 224)%N then
        match r0 with
        | b1 :: r1 => ((b0 mod 32) * 64 + b1 mod 64)%N :: utf8 r1
        | _ => []
        end
      else if (b0 <? 240)%N then
        match r0 with
        | b1 :: b2 :: r2 =>
            ((b0 mod 16) * 4096 + (b1 mod 64) * 64 + b2 mod 64)%N :: utf8 r2
        | _ => []
        end
      else
        match r0 with
        | b1 :: b2 :: b3 :: r3 =>
            ((b0 mod 8) * 262144 + (b1 mod 64) * 4096
             + (b2 mod 64) * 64 + b3 mod 64)%N :: utf8 r3
        | _ => []
        end
  end.

(** [py "..."] is the Python string written "..." in the source. *)
Definition py (s : string) : str :=
  utf8 (map N_of_ascii (list_ascii_of_string s)).

Fixpoint str_eqb (a b : str) : bool :=
  match a, b with
  | [], [] => true
  | x :: a', y :: b' => (x =? y)%N && str_eqb a' b'
  | _, _ => false
  end.

(** [len(s)] *)
Definition len {A} (l : list A) : Z := Z.of_nat (List.length l).

(** [s.startswith(prefix)] *)
Fixpoint startswith (s prefix : str) : bool :=
  match prefix, s with
  | [], _ => true
  | p :: prefix', c :: s' => (p =? c)%N && startswith s' prefix'
  | _ :: _, [] => false
  end.

(** [sub in s] for two strings *)
Fixpoint contains (sub s : str) : bool :=
  startswith s sub ||
  match s with
  | [] => false
  | _ :: s' => contains sub s'
  end.

(** [x in l] for a list or a set of strings *)
Definition mem (x : str) (l : list str) : bool := existsb (str_eqb x) l.

(** [sep.join(l)] *)
Fixpoint join (sep : str) (l : list str) : str :=
  match l with
  | [] => []
  | [x] => x
  | x :: l' => x ++ sep ++ join sep l'
  end.

(** [s.split(sep)] for a one-character separator *)
Fixpoint split (sep : N) (s : str) : list str :=
  match s with
  | [] => [[]]
  | c :: s' =>
      if (c =? sep)%N then [] :: split sep s'
      else match split sep s' with
           | [] => [[c]]
           | w :: ws => (c :: w) :: ws
           end
  end.

(** [c.isspace()]: the characters of bidirectional type WS, B or S and of
    category Zs. *)
Definition isspace (c : N) : bool :=
  ((9 <=? c) && (c <=? 13) || (28 <=? c) && (c <=? 32)
   || (c =? 133) || (c =? 160) || (c =? 5760)
   || (8192 <=? c) && (c <=? 8202) || (c =? 8232) || (c =? 8233)
   || (c =? 8239) || (c =? 8287) || (c =? 12288))%N.

Fixpoint lstrip (s : str) : str :=
  match s with
  | [] => []
  | c :: s' => if isspace c then lstrip s' else s
  end.

(** [s.strip()] *)
Definition strip (s : str) : str := rev (lstrip (rev (lstrip s))).

(** Truth value of a string: [if s:] *)
Definition nonempty {A} (l : list A) : bool :=
  match l with [] => false | _ => true end.

(** [set(l)], kept in insertion order: the first occurrence of each member. *)
Fixpoint set_of (l : list str) (seen : list str) : list str :=
  match l with
  | [] => []
  | x :: l' => if mem x seen then set_of l' seen else x :: set_of l' (x :: seen)
  end.

End Py.
Import Py.

(* ================================================================= *)
(** ** Exceptions *)

(** The exceptions the program distinguishes: the [HTTPException] that
    [parse_news] raises itself, and any other [Exception] (a [ValueError] of
    [urllib], a [KeyError], a parser failure, ...), which the program only
    ever catches and logs. *)
Inductive exn : Type :=
| HTTPException (status_code : N)
| Exception.

(** A computation that returns a value or raises. *)
Inductive may_raise (A : Type) : Type :=
| Ok (a : A)
| Raise (e : exn).
Arguments Ok {A} a.
Arguments Raise {A} e.

Definition bind {A B} (c : may_raise A) (k : A -> may_raise B) : may_raise B :=
  match c with
  | Ok a => k a
  | Raise e => Raise e
  end.

Notation "x <- c ;; k" := (bind c (fun x => k))
  (at level 61, c at next level, right associativity).

(* ================================================================= *)
(** ** The document model (bs4) *)

(** A node of a parsed document.  [Text] is a [NavigableString]; [Comment]
    stands for the string kinds that [get_text] skips; [Elem] is a [Tag] with
    its name, its [class] attribute (multi-valued in bs4, absent when [None]),
    its other attributes and its contents.  [Gone] is what [decompose] leaves
    where a subtree was: the tag is out of the tree and emptied. *)
Inductive node : Type :=
| Text (s : str)
| Comment (s : str)
| Elem (name : str) (classes : option (list str))
       (attrs : list (str * str)) (contents : list node)
| Gone.

(** A reference to a tag inside a document: the child indices from the root. *)
Definition path := list nat.

Module Dom.

Definition name_of (n : node) : option str :=
  match n with Elem nm _ _ _ => Some nm | _ => None end.

Definition classes_of (n : node) : option (list str) :=
  match n with Elem _ cl _ _ => cl | _ => None end.

Fixpoint assoc (k : str) (l : list (str * str)) : option str :=
  match l with
  | [] => None
  | (k', v) :: l' => if str_eqb k k' then Some v else assoc k l'
  end.

(** [tag.attrs.get(key)] for a single-valued attribute *)
Definition attr (key : str) (n : node) : option str :=
  match n with Elem _ _ at_ _ => assoc key at_ | _ => None end.

(** [tag.get(key, default)] *)
Definition get (n : node) (key default : str) : str :=
  match attr key n with Some v => v | None => default end.

(** [tag[key]]: a [KeyError] when the attribute is absent *)
Definition getitem (n : node) (key : str) : may_raise str :=
  match attr key n with Some v => Ok v | None => Raise Exception end.

Definition is_tag (nm : str) (n : node) : bool :=
  match name_of n with Some nm' => str_eqb nm nm' | None => false end.

Definition has_attr (key : str) (n : node) : bool :=
  match attr key n with Some _ => true | None => false end.

Definition attr_is (key v : str) (n : node) : bool :=
  match attr key n with Some v' => str_eqb v v' | None => false end.

Definition has_class (c : str) (n : node) : bool :=
  match classes_of n with Some cl => mem c cl | None => false end.

(** The descendants of a node in document order, each with its path from the
    node.  A decomposed child is no longer among the contents. *)
Fixpoint walk (n : node) : list (path * node) :=
  match n with
  | Elem _ _ _ cs =>
      (fix go (i : nat) (cs : list node) : list (path * node) :=
         match cs with
         | [] => []
         | Gone :: cs' => go (S i) cs'
         | c :: cs' =>
             ([i], c) :: map (fun pd => (i :: fst pd, snd pd)) (walk c)
             ++ go (S i) cs'
         end) 0%nat cs
  | _ => []
  end.

Definition descendants (n : node) : list node := map snd (walk n).

(** [tag.find_all(...)] with the test [f] for the name and attributes *)
Definition find_all (f : node -> bool) (n : node) : list node :=
  filter f (descendants n).

(** [tag.find(...)]: the first match, or [None] *)
Definition find (f : node -> bool) (n : node) : option node :=
  hd_error (find_all f n).

(** [tag.get_text(strip=True)]: the stripped, non-empty strings below the
    tag, joined without a separator. *)
Definition get_text (n : node) : str :=
  flat_map (fun d => match d with Text s => strip s | _ => [] end)
           (descendants n).

(** [hasattr(x, 'get')]: [Tag] defines [get]; a string does not. *)
Definition hasattr_get (n : node) : bool :=
  match n with Elem _ _ _ _ | Gone => true | _ => false end.

(** Equality of tags as members of a [set]: the same markup (the hash of a
    tag is the hash of its markup) and [Tag.__eq__] (same name, attributes
    and contents). *)
Fixpoint list_eqb {A} (eqb : A -> A -> bool) (l1 l2 : list A) : bool :=
  match l1, l2 with
  | [], [] => true
  | x :: l1', y :: l2' => eqb x y && list_eqb eqb l1' l2'
  | _, _ => false
  end.

Fixpoint node_eqb (a b : node) : bool :=
  match a, b with
  | Text s, Text t => str_eqb s t
  | Comment s, Comment t => str_eqb s t
  | Gone, Gone => true
  | Elem n1 c1 a1 k1, Elem n2 c2 a2 k2 =>
      str_eqb n1 n2
      && match c1, c2 with
         | None, None => true
         | Some l1, Some l2 => list_eqb str_eqb l1 l2
         | _, _ => false
         end
      && list_eqb (fun kv1 kv2 => str_eqb (fst kv1) (fst kv2)
                                  && str_eqb (snd kv1) (snd kv2)) a1 a2
      && (fix all2 (k1 k2 : list node) : bool :=
            match k1, k2 with
            | [], [] => true
            | x :: k1', y :: k2' => node_eqb x y && all2 k1' k2'
            | _, _ => false
            end) k1 k2
  | _, _ => false
  end.

(** The members of [set(l)] for a list of tags, in insertion order. *)
Fixpoint tag_set (l : list node) (seen : list node) : list node :=
  match l with
  | [] => []
  | x :: l' =>
      if existsb (node_eqb x) seen then tag_set l' seen
      else x :: tag_set l' (x :: seen)
  end.

(** *** CSS selectors (soupsieve), as far as the program uses them *)

Inductive simple_selector : Type :=
| SelTag (nm : str)                (* [article] *)
| SelClass (c : str)               (* [.news-list] *)
| SelTagClass (nm c : str)         (* [div.news] *)
| SelAttr (key v : str).           (* [[data-testid='latest-stream']] *)

(** A selector: a comma-separated group. *)
Definition selector := list simple_selector.

Definition matches1 (s : simple_selector) (n : node) : bool :=
  match s with
  | SelTag nm => is_tag nm n
  | SelClass c => has_class c n
  | SelTagClass nm c => is_tag nm n && has_class c n
  | SelAttr key v => attr_is key v n
  end.

Definition matches (sel : selector) (n : node) : bool :=
  existsb (fun s => matches1 s n) sel.

(** [tag.select(sel)] and [tag.select_one(sel)] *)
Definition select (sel : selector) (n : node) : list node :=
  find_all (matches sel) n.

Definition select_one (sel : selector) (n : node) : option node :=
  find (matches sel) n.

(** *** References into a document that is being mutated *)

(** The tag a reference denotes in the current document, if it is still
    there. *)
Fixpoint resolve (doc : node) (p : path) : option node :=
  match p with
  | [] => match doc with Gone => None | _ => Some doc end
  | i :: p' =>
      match doc with
      | Elem _ _ _ cs =>
          match nth_error cs i with
          | Some c => resolve c p'
          | None => None
          end
      | _ => None
      end
  end.

Fixpoint update_nth {A} (i : nat) (f : A -> A) (l : list A) : list A :=
  match l, i with
  | [], _ => []
  | x :: l', O => f x :: l'
  | x :: l', S i' => x :: update_nth i' f l'
  end.

(** [tag.decompose()] for the tag at [p]: nothing happens to the document
    when the tag has already gone with an ancestor. *)
Fixpoint decompose (doc : node) (p : path) : node :=
  match p with
  | [] => Gone
  | i :: p' =>
      match doc with
      | Elem nm cl at_ cs =>
          Elem nm cl at_ (update_nth i (fun c => decompose c p') cs)
      | _ => doc
      end
  end.

(** References to the descendants of the tag at [p] that pass [f], in
    document order; none when the tag itself is gone. *)
Definition find_all_at (f : node -> bool) (doc : node) (p : path)
  : list path :=
  match resolve doc p with
  | Some c =>
      map (fun pd => p ++ fst pd) (filter (fun pd => f (snd pd)) (walk c))
  | None => []
  end.

Definition find_at (f : node -> bool) (doc : node) : option path :=
  hd_error (find_all_at f doc []).

(** The text of the tag a reference denotes. *)
Definition get_text_at (doc : node) (p : path) : str :=
  match resolve doc p with Some c => get_text c | None => [] end.

End Dom.
Import Dom.

(* ================================================================= *)
(** ** The libraries the program runs on *)

(** [urllib.parse.ParseResult], the components the program reads. *)
Record ParseResult : Type := {
  scheme : str;
  netloc : str;
  path_ : str
}.

(** What [requests.get] followed by [raise_for_status] comes to: the text of
    the response, a [requests.RequestException], or another exception. *)
Inductive get_outcome : Type :=
| Response (text : str)
| RequestException
| OtherException.

Class Runtime : Type := {
  (** [str.lower], [str.isdigit] on a character, and the class [\d] of [re]
      (the decimal digits of Unicode) *)
  lower : str -> str;
  isdigit : N -> bool;
  isdecimal : N -> bool;
  (** [urllib.parse]; both can raise [ValueError] *)
  urlparse : str -> may_raise ParseResult;
  urljoin : str -> str -> may_raise str;
  (** [requests.get(url, headers=..., timeout=10, verify=False)] *)
  requests_get : str -> get_outcome;
  (** [BeautifulSoup(html, 'lxml')] *)
  BeautifulSoup : str -> may_raise node
}.

(** The order in which a [set] is iterated: it depends on the hashes of the
    members, which for strings (and for tags, hashed through their markup)
    depend on the hash seed of the interpreter process.  The argument is the
    list of members in insertion order. *)
Class HashOrder : Type := {
  tag_order : list node -> list node;
  tag_order_perm : forall l, Permutation (tag_order l) l;
  str_order : list str -> list str;
  str_order_perm : forall l, Permutation (str_order l) l
}.

(* ================================================================= *)
(** ** Regular expressions ([re.search]) *)

Module Re.

(** The patterns of the program are sequences of one-character classes, each
    with a repetition range. *)
Inductive atom : Type :=
| Chr (c : N)        (* a literal character *)
| Digit              (* [\d] *)
| Slug.              (* [[a-z0-9-]] *)

Record piece : Type := {
  what : atom;
  at_least : nat;
  at_most : option nat          (* [None]: unbounded *)
}.

Definition pattern := list piece.

Definition lit (s : string) : pattern :=
  map (fun c => {| what := Chr c; at_least := 1; at_most := Some 1%nat |})
      (py s).
Definition rep (a : atom) (lo hi : nat) : pattern :=
  [{| what := a; at_least := lo; at_most := Some hi |}].
Definition rep_from (a : atom) (lo : nat) : pattern :=
  [{| what := a; at_least := lo; at_most := None |}].

Section Search.
Context {rt : Runtime}.

Definition atom_ok (a : atom) (c : N) : bool :=
  match a with
  | Chr c' => (c =? c')%N
  | Digit => isdecimal c
  | Slug => ((97 <=? c) && (c <=? 122) || (48 <=? c) && (c <=? 57)
             || (c =? 45))%N
  end.

(** Some number of characters of class [a] within the range, then [k]. *)
Fixpoint match_piece (a : atom) (lo : nat) (hi : option nat)
    (k : str -> bool) (s : str) : bool :=
  (match lo with O => k s | S _ => false end)
  || match hi with
     | Some O => false
     | _ =>
         match s with
         | [] => false
         | c :: s' =>
             atom_ok a c
             && match_piece a (Nat.pred lo) (option_map Nat.pred hi) k s'
         end
     end.

(** A prefix of the string matches the pattern. *)
Fixpoint match_here (p : pattern) : str -> bool :=
  match p with
  | [] => fun _ => true
  | pc :: p' => match_piece (what pc) (at_least pc) (at_most pc) (match_here p')
  end.

(** [re.search(p, s)] finds a match. *)
Fixpoint search (p : pattern) (s : str) : bool :=
  match_here p s
  || match s with
     | [] => false
     | _ :: s' => search p s'
     end.

End Search.
End Re.

(* ================================================================= *)
(** ** The program *)

Import Re.

(** The records of the service: [NewsItem] and [NewsResponse]. *)
Record NewsItem : Type := {
  url : str;
  title : str;
  content : str
}.

Record NewsResponse : Type := {
  total : Z;
  news : list NewsItem
}.

Definition exclude_patterns : list str := map py
  [ "/tag/"; "/tags/"; "/contacts"; "/contact"; "/about"; "/sotrudnichestvo";
    "/view_file.pdf"; "/search"; "/login"; "/register"; "/auth";
    "/rss"; "/advertising"; "/privacy"; "/terms"; ".jpg"; ".png"; ".pdf";
    "/category/"; "/categories/"; "/section/"; "/sections/"; "/topics/";
    "/feed/"; "/subscriptions/"; "/subscribe/"; "/newsletter"; "/newsletters/";
    "/latest/"; "/popular/"; "/archive/"; "/authors/"; "/team/";
    "?utm_source="; "?from="; "/pages/"; "/help/"; "/support/"; "/dc/";
    "/newspaper/"; "/crypto/"; "/industries/"; "/gorod/" ].

Definition news_patterns : list pattern :=
  [ (* /\d{4}/\d{1,2}/\d{1,2}/ *)
    lit "/" ++ rep Digit 4 4 ++ lit "/" ++ rep Digit 1 2 ++ lit "/"
      ++ rep Digit 1 2 ++ lit "/";
    (* /news/\d+ *)
    lit "/news/" ++ rep_from Digit 1;
    (* /article/\d+ *)
    lit "/article/" ++ rep_from Digit 1;
    (* /\d{4,}/\d{1,2}/\d{1,2}/[a-z0-9-]+ *)
    lit "/" ++ rep_from Digit 4 ++ lit "/" ++ rep Digit 1 2 ++ lit "/"
      ++ rep Digit 1 2 ++ lit "/" ++ rep_from Slug 1;
    (* /news/[a-z0-9-]+ *)
    lit "/news/" ++ rep_from Slug 1;
    (* /article/[a-z0-9-]+ *)
    lit "/article/" ++ rep_from Slug 1;
    (* /post/[a-z0-9-]+ *)
    lit "/post/" ++ rep_from Slug 1;
    (* /story/[a-z0-9-]+ *)
    lit "/story/" ++ rep_from Slug 1;
    (* /[a-z0-9-]{10,} *)
    lit "/" ++ rep_from Slug 10 ].

Definition container_selectors : list selector :=
  [ [SelTag (py "article")];
    [SelTagClass (py "div") (py "article")];
    [SelTagClass (py "div") (py "news")];
    [SelTagClass (py "div") (py "post")];
    [SelTagClass (py "li") (py "news-item")];
    [SelClass (py "news-list")];
    [SelClass (py "article-list")];
    [SelClass (py "post-list")];
    [SelClass (py "news-feed")];
    [SelClass (py "news-container")];
    [SelClass (py "articles-container")];
    [SelClass (py "posts-container")];
    [SelAttr (py "data-testid") (py "latest-stream")];
    [SelAttr (py "data-testid") (py "article-stream")] ].

Definition container_keywords : list str :=
  map py ["news"; "article"; "post"; "story"; "entry"].

Definition reporting_verbs : list str :=
  map py ["says"; "claims"; "reports"; "announced"; "revealed"; "launches";
          "introduces"].

(** [.news-title, .article-title, .post-title, .entry-title, .headline, .title] *)
Definition title_selector : selector :=
  map (fun c => SelClass (py c))
      ["news-title"; "article-title"; "post-title"; "entry-title"; "headline";
       "title"].

(** [article, .article, .news-content, .post-content, .entry-content,
    .content, .article-body, .post-body, .story-body] *)
Definition content_selector : selector :=
  SelTag (py "article")
  :: map (fun c => SelClass (py c))
       ["article"; "news-content"; "post-content"; "entry-content"; "content";
        "article-body"; "post-body"; "story-body"].

(** [nav, .nav, .navigation, .share, .social, .related, .comments, .sidebar,
    aside, footer, header] *)
Definition navigation_selector : selector :=
  SelTag (py "nav")
  :: map (fun c => SelClass (py c))
       ["nav"; "navigation"; "share"; "social"; "related"; "comments";
        "sidebar"]
  ++ map (fun t => SelTag (py t)) ["aside"; "footer"; "header"].

Definition content_keywords : list str :=
  map py ["content"; "article"; "news"; "text"; "body"; "story"].

Definition error_markers : list str :=
  map py ["404"; "not found"; "page not found"; "страница не найдена"].

Definition default_title : str := py "Без заголовка".

Section Program.
Context {rt : Runtime} {ho : HashOrder}.

(** *** fetch_page *)

Definition fetch_page (url : str) : may_raise (option str) :=
  match requests_get url with
  | Response text => Ok (Some text)
  | RequestException => Ok None         (* logged *)
  | OtherException => Raise Exception
  end.

(** [not html] *)
Definition no_markup (html : option str) : bool :=
  match html with Some (_ :: _) => false | _ => true end.

Definition markup (html : option str) : str :=
  match html with Some text => text | None => [] end.

(** *** detect_news_links *)

Definition is_heading (names : list string) (n : node) : bool :=
  existsb (fun nm => is_tag (py nm) n) names.

Definition is_link (n : node) : bool :=
  is_tag (py "a") n && has_attr (py "href") n.

(** The generic search for containers: [div]s whose class mentions a
    keyword. *)
Definition has_class_attr (n : node) : bool :=
  match classes_of n with Some _ => true | None => false end.

Definition keyword_containers (soup : node) : list node :=
  filter (fun div =>
            let class_attr :=
              join (py " ")
                   (match classes_of div with Some cl => cl | None => [] end) in
            existsb (fun keyword => contains keyword (lower class_attr))
                    container_keywords)
         (find_all (fun n => is_tag (py "div") n && has_class_attr n) soup).

Definition heading_links (names : list string) (root : node) : list node :=
  flat_map (fun heading =>
              match find is_link heading with
              | Some link => [link]
              | None => []
              end)
           (find_all (is_heading names) root).

Definition container_links (container : node) : list node :=
  heading_links ["h1"; "h2"; "h3"; "h4"] container
  ++ filter (fun link => nonempty (get_text link)
                         && (len (get_text link) >? 15)%Z)
            (find_all is_link container).

Definition page_links (soup : node) : list node :=
  heading_links ["h2"; "h3"] soup
  ++ filter (fun link => let text := get_text link in
                         nonempty text && (len text >? 30)%Z
                         && (len text <? 150)%Z)
            (find_all is_link soup).

Definition is_excluded (full_url : str) : bool :=
  existsb (fun pattern => contains pattern (lower full_url)) exclude_patterns.

Definition skip_href (href : str) : bool :=
  negb (nonempty href) || startswith href (py "#")
  || startswith href (py "javascript:").

Definition segment_heuristics (path : str) : bool :=
  let segments := filter nonempty (split 47 path) in
  if (len segments >=? 2)%Z then
    if nonempty segments && (len (last segments []) >? 10)%Z then true
    else existsb (fun segment => existsb isdigit segment) segments
  else false.

Definition headline_like (link_text : str) : bool :=
  nonempty link_text && (len link_text >? 30)%Z && (len link_text <? 200)%Z
  && (contains (py ":") link_text
      || existsb (fun word => contains word (lower link_text)) reporting_verbs).

Section Passes.
Variables (base_url : str) (parsed_url : ParseResult) (max_links : Z).

(** The loop over [links_to_check]; [news_links] is the set built so far, in
    insertion order. *)
Fixpoint main_pass (links_to_check : list node) (news_links : list str)
  : may_raise (list str) :=
  match links_to_check with
  | [] => Ok news_links
  | link :: rest =>
      href <- getitem link (py "href") ;;
      if skip_href href then main_pass rest news_links
      else
        full_url <- urljoin base_url href ;;
        parsed_href <- urlparse full_url ;;
        if negb (contains (netloc parsed_url) (netloc parsed_href))
        then main_pass rest news_links
        else if is_excluded full_url then main_pass rest news_links
        else
          let path := path_ parsed_href in
          let is_likely_news := existsb (fun pattern => search pattern path)
                                        news_patterns in
          let is_likely_news :=
            if negb is_likely_news then segment_heuristics path
            else is_likely_news in
          let is_likely_news :=
            if headline_like (get_text link) then true else is_likely_news in
          let news_links :=
            if is_likely_news && negb (mem full_url news_links)
            then news_links ++ [full_url] else news_links in
          if (len news_links >=? max_links)%Z then Ok news_links
          else main_pass rest news_links
  end.

(** The inner loop of the last resort: the first pattern that matches adds
    the URL, unless it is already there. *)
Fixpoint pattern_loop (patterns : list pattern) (path full_url : str)
    (news_links : list str) : list str :=
  match patterns with
  | [] => news_links
  | pattern :: rest =>
      if search pattern path then
        if negb (mem full_url news_links) then news_links ++ [full_url]
        else pattern_loop rest path full_url news_links
      else pattern_loop rest path full_url news_links
  end.

Fixpoint last_resort (all_links : list node) (news_links : list str)
  : may_raise (list str) :=
  match all_links with
  | [] => Ok news_links
  | link :: rest =>
      href <- getitem link (py "href") ;;
      if skip_href href then last_resort rest news_links
      else
        full_url <- urljoin base_url href ;;
        parsed_href <- urlparse full_url ;;
        if negb (contains (netloc parsed_url) (netloc parsed_href))
        then last_resort rest news_links
        else if is_excluded full_url then last_resort rest news_links
        else
          let news_links :=
            pattern_loop news_patterns (path_ parsed_href) full_url news_links in
          if (len news_links >=? max_links)%Z then Ok news_links
          else last_resort rest news_links
  end.

End Passes.

Definition detect_news_links (url : str) (max_links : Z)
  : may_raise (list str) :=
  html <- fetch_page url ;;
  if no_markup html then Ok []
  else
    soup <- BeautifulSoup (markup html) ;;
    parsed_url <- urlparse url ;;
    let base_url := scheme parsed_url ++ py "://" ++ netloc parsed_url in
    let news_containers :=
      flat_map (fun selector => select selector soup) container_selectors in
    let news_containers :=
      if negb (nonempty news_containers) then keyword_containers soup
      else news_containers in
    let links_to_check := flat_map container_links news_containers in
    let links_to_check :=
      if negb (nonempty links_to_check) then page_links soup
      else links_to_check in
    (* unique_links = set(); ...; links_to_check = list(unique_links) *)
    let links_to_check := tag_order (tag_set links_to_check []) in
    news_links <- main_pass base_url parsed_url max_links links_to_check [] ;;
    news_links <-
      (if negb (nonempty news_links)
       then last_resort base_url parsed_url max_links (find_all is_link soup)
                        news_links
       else Ok news_links) ;;
    Ok (str_order news_links).

(** *** parse_news_content *)

(** The loop over [title_candidates]; [title] starts as [None]. *)
Fixpoint title_loop (title_candidates : list (option node))
    (title : option str) : option str :=
  match title_candidates with
  | [] => title
  | None :: rest => title_loop rest title
  | Some candidate :: rest =>
      let title :=
        if hasattr_get candidate then get candidate (py "content") (py "")
        else get_text candidate in
      if nonempty title then Some title
      else title_loop rest (Some title)
  end.

Definition title_candidates (soup : node) : list (option node) :=
  [ find (is_tag (py "h1")) soup;
    select_one title_selector soup;
    find (fun n => is_tag (py "meta") n
                   && attr_is (py "property") (py "og:title") n) soup;
    find (fun n => is_tag (py "meta") n
                   && attr_is (py "name") (py "title") n) soup;
    find (is_tag (py "title")) soup ].

Definition find_title (soup : node) : str :=
  match title_loop (title_candidates soup) None with
  | Some (c :: t) => c :: t
  | _ => default_title
  end.

(** [lambda c: c and any(x in c for x in [...])], as bs4 applies it to a
    [class] attribute: to each class, then to the whole value; and to an
    [id]. *)
Definition mentions_content (c : str) : bool :=
  nonempty c && existsb (fun x => contains x c) content_keywords.

Definition class_mentions_content (n : node) : bool :=
  match classes_of n with
  | Some cl => existsb mentions_content cl || mentions_content (join (py " ") cl)
  | None => false
  end.

Definition id_mentions_content (n : node) : bool :=
  match attr (py "id") n with
  | Some i => mentions_content i
  | None => false
  end.

(** The four candidates for the container, found before the document is
    touched. *)
Definition content_containers (soup : node) : list (option path) :=
  [ find_at (matches content_selector) soup;
    find_at (fun n => is_tag (py "div") n
                      && attr_is (py "itemprop") (py "articleBody") n) soup;
    find_at (fun n => is_tag (py "div") n && class_mentions_content n) soup;
    find_at (fun n => is_tag (py "div") n && id_mentions_content n) soup ].

(** [for nav in container.select(...): nav.decompose()] *)
Definition remove_navigation (soup : node) (container : path) : node :=
  fold_left decompose
            (find_all_at (matches navigation_selector) soup container) soup.

(** [[p.get_text(strip=True) for p in paragraphs
      if len(p.get_text(strip=True)) > 20]] *)
Definition filter_paragraphs (soup : node) (paragraphs : list path)
  : list str :=
  map (get_text_at soup)
      (filter (fun p => (len (get_text_at soup p) >? 20)%Z) paragraphs).

Definition is_p (n : node) : bool := is_tag (py "p") n.

(** The variables of the body search: the document, which [decompose]
    changes, [content_text], and [filtered_paragraphs], unbound at first. *)
Record body_state : Type := {
  soup_ : node;
  content_text : str;
  filtered_paragraphs : option (list str)
}.

(** 1. The loop over [content_containers]. *)
Fixpoint container_loop (containers : list (option path)) (st : body_state)
  : body_state :=
  match containers with
  | [] => st
  | None :: rest => container_loop rest st
  | Some container :: rest =>
      let soup := remove_navigation (soup_ st) container in
      let paragraphs := find_all_at is_p soup container in
      if nonempty paragraphs then
        let filtered := filter_paragraphs soup paragraphs in
        if nonempty filtered then
          {| soup_ := soup;
             content_text := join (py " ") filtered;
             filtered_paragraphs := Some filtered |}
        else
          container_loop rest
            {| soup_ := soup;
               content_text := content_text st;
               filtered_paragraphs := Some filtered |}
      else
        container_loop rest
          {| soup_ := soup;
             content_text := content_text st;
             filtered_paragraphs := filtered_paragraphs st |}
  end.

(** 2. The paragraphs of [<main>], or else of [<body>]. *)
Definition main_or_body (st : body_state) : body_state :=
  if negb (nonempty (content_text st)) then
    let main_content :=
      match find_at (is_tag (py "main")) (soup_ st) with
      | Some m => Some m
      | None => find_at (is_tag (py "body")) (soup_ st)
      end in
    match main_content with
    | Some main_content =>
        let soup := remove_navigation (soup_ st) main_content in
        let paragraphs := find_all_at is_p soup main_content in
        let filtered := filter_paragraphs soup paragraphs in
        {| soup_ := soup;
           content_text :=
             if nonempty filtered then join (py " ") filtered
             else content_text st;
           filtered_paragraphs := Some filtered |}
    | None => st
    end
  else st.

(** 3. Every paragraph of the page. *)
Definition all_paragraphs (st : body_state) : body_state :=
  if negb (nonempty (content_text st)) then
    let paragraphs := find_all_at is_p (soup_ st) [] in
    let filtered := filter_paragraphs (soup_ st) paragraphs in
    {| soup_ := soup_ st;
       content_text :=
         if nonempty filtered then join (py " ") filtered
         else content_text st;
       filtered_paragraphs := Some filtered |}
  else st.

Definition find_content (soup : node) : body_state :=
  all_paragraphs
    (main_or_body
       (container_loop (content_containers soup)
          {| soup_ := soup; content_text := py "";
             filtered_paragraphs := None |})).

(** [len(set(l))] *)
Definition count_unique (l : list str) : Z := len (set_of l []).

Definition is_error_page (content_text : str) : bool :=
  existsb (fun phrase => contains phrase (lower content_text)) error_markers.

Definition quality_gate (url title : str) (st : body_state)
  : option NewsItem :=
  let content_text := content_text st in
  if negb (nonempty content_text) || (len content_text <? 100)%Z then None
  else if is_error_page content_text then None
  else
    let paragraphs_set :=
      match filtered_paragraphs st with
      | Some filtered => set_of filtered []
      | None => []                  (* not in locals() *)
      end in
    if (len paragraphs_set <? 3)%Z then None
    else Some {| url := url; title := title; content := content_text |}.

Definition parse_news_content (url : str) : may_raise (option NewsItem) :=
  html <- fetch_page url ;;
  if no_markup html then Ok None
  else
    soup <- BeautifulSoup (markup html) ;;
    let title := find_title soup in
    Ok (quality_gate url title (find_content soup)).

(** *** process_site *)

(** How the loop over the links ended: normally (exhausted, or [break]), or
    by an exception. *)
Inductive ending : Type :=
| Finished
| Failed (e : exn).

(** The loop over [news_links]; [result] is the list the function appends
    to, which outlives an exception. *)
Fixpoint news_loop (news_links : list str) (max_news : Z)
    (result : list NewsItem) : list NewsItem * ending :=
  match news_links with
  | [] => (result, Finished)
  | news_url :: rest =>
      match parse_news_content news_url with
      | Raise e => (result, Failed e)
      | Ok (Some news_data) =>
          let result := result ++ [news_data] in
          if (len result >=? max_news)%Z then (result, Finished)
          else news_loop rest max_news result
      | Ok None => news_loop rest max_news result
      end
  end.

Definition process_site (url : str) (max_news : Z) : list NewsItem :=
  let result := [] in
  (* try: *)
  match detect_news_links url (max_news * 2) with
  | Raise e => result                     (* except Exception: logged *)
  | Ok news_links =>
      if negb (nonempty news_links) then []
      else
        match news_loop news_links max_news result with
        | (result, Finished) => result
        | (result, Failed e) => result    (* except Exception: logged *)
        end
  end.

(** *** parse_news *)

Definition parse_news (urls : list str) : may_raise NewsResponse :=
  if negb (nonempty urls) then Raise (HTTPException 400)
  else
    let all_news :=
      fold_left (fun all_news site_url => all_news ++ process_site site_url 5)
                urls [] in
    Ok {| total := len all_news; news := all_news |}.

End Program.

(* ================================================================= *)
(** ** A runtime to run the program on

    An instance of [Runtime] for the examples: the library functions
    restricted to what the examples use (Latin and Cyrillic letters, ASCII
    digits, http(s) URLs without dot segments or parameters), a web made of
    a table of responses, and the trees the parser builds for their texts. *)

Module Ref.

Definition lower_char (c : N) : N :=
  if ((65 <=? c) && (c <=? 90))%N then (c + 32)%N
  else if ((1040 <=? c) && (c <=? 1071))%N then (c + 32)%N
  else if ((1024 <=? c) && (c <=? 1039))%N then (c + 80)%N
  else c.

Definition ascii_digit (c : N) : bool := ((48 <=? c) && (c <=? 57))%N.

Definition scheme_char (c : N) : bool :=
  ((97 <=? c) && (c <=? 122) || (65 <=? c) && (c <=? 90)
   || ascii_digit c || (c =? 43) || (c =? 45) || (c =? 46))%N.

(** The string up to the first character that passes [stop], and the rest. *)
Fixpoint break_at (stop : N -> bool) (s : str) : str * str :=
  match s with
  | [] => ([], [])
  | c :: s' =>
      if stop c then ([], s)
      else let (a, b) := break_at stop s' in (c :: a, b)
  end.

Definition split_scheme (s : str) : str * str :=
  match break_at (fun c => negb (scheme_char c)) s with
  | (c :: sch, 58%N :: rest) =>
      if ascii_digit c then ([], s) else (map lower_char (c :: sch), rest)
  | _ => ([], s)
  end.

Definition urlparse_ref (s : str) : may_raise ParseResult :=
  let (sch, rest) := split_scheme s in
  let (loc, rest) :=
    if startswith rest (py "//") then
      break_at (fun c => (c =? 47) || (c =? 63) || (c =? 35))%N
               (skipn 2 rest)
    else ([], rest) in
  Ok {| scheme := sch; netloc := loc;
        path_ := fst (break_at (fun c => (c =? 63) || (c =? 35))%N rest) |}.

Definition urljoin_ref (base ref : str) : may_raise str :=
  match base, ref with
  | [], _ => Ok ref
  | _, [] => Ok base
  | _, _ =>
      let (bscheme, brest) := split_scheme base in
      let bnetloc :=
        if startswith brest (py "//") then
          fst (break_at (fun c => (c =? 47) || (c =? 63) || (c =? 35))%N
                        (skipn 2 brest))
        else [] in
      let (sch, rest) := split_scheme ref in
      if nonempty sch && negb (str_eqb sch bscheme) then Ok ref
      else if startswith rest (py "//") then Ok (bscheme ++ py ":" ++ rest)
      else if startswith rest (py "/")
      then Ok (bscheme ++ py "://" ++ bnetloc ++ rest)
      else Ok (bscheme ++ py "://" ++ bnetloc ++ py "/" ++ rest)
  end.

Fixpoint lookup {A} (k : str) (table : list (str * A)) : option A :=
  match table with
  | [] => None
  | (k', v) :: table' => if str_eqb k k' then Some v else lookup k table'
  end.

(** The runtime over a web [served] (what each URL answers; a URL that is
    not listed fails to connect) and the parser's trees [parsed] (a text
    that is not listed makes the parser fail). *)
Definition runtime (served : list (str * get_outcome))
    (parsed : list (str * node)) : Runtime :=
  {| lower := map lower_char;
     isdigit := ascii_digit;
     isdecimal := ascii_digit;
     urlparse := urlparse_ref;
     urljoin := urljoin_ref;
     requests_get := fun url =>
       match lookup url served with
       | Some answer => answer
       | None => RequestException
       end;
     BeautifulSoup := fun html =>
       match lookup html parsed with
       | Some soup => Ok soup
       | None => Raise Exception
       end |}.

(** Two iteration orders of a set: as inserted, and reversed. *)
Definition inserted : HashOrder :=
  {| tag_order := fun l => l;
     tag_order_perm := fun l => Permutation_refl l;
     str_order := fun l => l;
     str_order_perm := fun l => Permutation_refl l |}.

Definition reversed : HashOrder :=
  {| tag_order := fun l => l;
     tag_order_perm := fun l => Permutation_refl l;
     str_order := @rev str;
     str_order_perm := fun l => Permutation_sym (Permutation_rev l) |}.


(** *** Pages *)

Definition el (nm : string) (contents : list node) : node :=
  Elem (py nm) None [] contents.

Definition a_href (href text : string) : node :=
  Elem (py "a") None [(py "href", py href)] [Text (py text)].

Definition document (contents : list node) : node :=
  Elem (py "[document]") None [] contents.

Definition p1 := "The council approved the new budget on Monday.".
Definition p2 := "Officials expect the works to start in spring.".
Definition p3 := "Residents welcomed the decision at the meeting.".

Definition paragraph (text : string) : node := el "p" [Text (py text)].

(** An article with a heading, a document title and three paragraphs. *)
Definition article_html : str := py
  "<html><head><title>Example News</title></head><body><h1>Breaking headline</h1><article><p>The council approved the new budget on Monday.</p><p>Officials expect the works to start in spring.</p><p>Residents welcomed the decision at the meeting.</p></article></body></html>".

Definition article_soup : node :=
  document
    [el "html"
       [el "head" [el "title" [Text (py "Example News")]];
        el "body"
          [el "h1" [Text (py "Breaking headline")];
           el "article" [paragraph p1; paragraph p2; paragraph p3]]]].

(** An article without any title source. *)
Definition plain_html : str := py
  "<html><body><article><p>The council approved the new budget on Monday.</p><p>Officials expect the works to start in spring.</p><p>Residents welcomed the decision at the meeting.</p></article></body></html>".

Definition plain_soup : node :=
  document
    [el "html"
       [el "body"
          [el "article" [paragraph p1; paragraph p2; paragraph p3]]]].

(** An article whose heading and document title are empty. *)
Definition untitled_html : str := py
  "<html><head><title></title></head><body><h1> </h1><article><p>The council approved the new budget on Monday.</p><p>Officials expect the works to start in spring.</p><p>Residents welcomed the decision at the meeting.</p></article></body></html>".

Definition untitled_soup : node :=
  document
    [el "html"
       [el "head" [el "title" []];
        el "body"
          [el "h1" [Text (py " ")];
           el "article" [paragraph p1; paragraph p2; paragraph p3]]]].

(** An article with a heading and an [og:title]. *)
Definition meta_html : str := py
  "<html><head><meta property='og:title' content='Council approves budget'><title>Example News</title></head><body><h1>Breaking headline</h1><article><p>The council approved the new budget on Monday.</p><p>Officials expect the works to start in spring.</p><p>Residents welcomed the decision at the meeting.</p></article></body></html>".

Definition og_title : node :=
  Elem (py "meta") None
       [(py "property", py "og:title");
        (py "content", py "Council approves budget")] [].

Definition meta_soup : node :=
  document
    [el "html"
       [el "head" [og_title; el "title" [Text (py "Example News")]];
        el "body"
          [el "h1" [Text (py "Breaking headline")];
           el "article" [paragraph p1; paragraph p2; paragraph p3]]]].

(** An article whose first paragraph occurs twice. *)
Definition repeated_html : str := py
  "<html><body><article><p>The council approved the new budget on Monday.</p><p>The council approved the new budget on Monday.</p><p>Officials expect the works to start in spring.</p><p>Residents welcomed the decision at the meeting.</p></article></body></html>".

Definition repeated_soup : node :=
  document
    [el "html"
       [el "body"
          [el "article"
             [paragraph p1; paragraph p1; paragraph p2; paragraph p3]]]].

(** A front page with two article links, a link to a tag page under
    [/news/] and a link to another site whose host ends in the site's
    host. *)
Definition front_html : str := py
  "<html><body><article><h2><a href='/news/12345'>Budget approved</a></h2><h2><a href='/news/67890'>Works start in spring</a></h2><h2><a href='/news/tag/elections'>Elections</a></h2><h2><a href='https://notexample.com/news/777'>Elsewhere</a></h2></article></body></html>".

Definition front_soup : node :=
  document
    [el "html"
       [el "body"
          [el "article"
             [el "h2" [a_href "/news/12345" "Budget approved"];
              el "h2" [a_href "/news/67890" "Works start in spring"];
              el "h2" [a_href "/news/tag/elections" "Elections"];
              el "h2" [a_href "https://notexample.com/news/777" "Elsewhere"]]]]].

(** A front page with a single article link. *)
Definition single_html : str := py
  "<html><body><article><h2><a href='/news/12345'>Budget approved</a></h2></article></body></html>".

Definition single_soup : node :=
  document
    [el "html"
       [el "body"
          [el "article" [el "h2" [a_href "/news/12345" "Budget approved"]]]]].

(** An article with a paragraph inside an [aside] and a repeated
    paragraph. *)
Definition p4 := "Subscribe to our newsletter for daily updates.".

Definition aside_html : str := py
  "<html><body><article><aside><p>Subscribe to our newsletter for daily updates.</p></aside><p>The council approved the new budget on Monday.</p><p>The council approved the new budget on Monday.</p><p>Officials expect the works to start in spring.</p><p>Residents welcomed the decision at the meeting.</p></article></body></html>".

Definition aside_soup : node :=
  document
    [el "html"
       [el "body"
          [el "article"
             [el "aside" [paragraph p4];
              paragraph p1; paragraph p1; paragraph p2; paragraph p3]]]].

(** A front page where two links lead to the same article. *)
Definition double_html : str := py
  "<html><body><article><h2><a href='/news/12345'>Budget approved</a></h2><h3><a href='/news/12345'>Read more</a></h3><h2><a href='/news/67890'>Works start in spring</a></h2></article></body></html>".

Definition double_soup : node :=
  document
    [el "html"
       [el "body"
          [el "article"
             [el "h2" [a_href "/news/12345" "Budget approved"];
              el "h3" [a_href "/news/12345" "Read more"];
              el "h2" [a_href "/news/67890" "Works start in spring"]]]]].

Definition parsed : list (str * node) :=
  [ (article_html, article_soup); (plain_html, plain_soup);
    (repeated_html, repeated_soup); (untitled_html, untitled_soup);
    (front_html, front_soup);
    (single_html, single_soup) ].

(** The site [example.com]: the front page and its two articles. *)
Definition example_com : list (str * get_outcome) :=
  [ (py "https://example.com", Response front_html);
    (py "https://example.com/news/12345", Response article_html);
    (py "https://example.com/news/67890", Response plain_html);
    (py "https://example.com/news/council-meeting", Response repeated_html);
    (py "https://example.com/news/untitled-page", Response untitled_html) ].

(** The site [single.test]: one link, to an article. *)
Definition single_test : list (str * get_outcome) :=
  [ (py "https://single.test", Response single_html);
    (py "https://single.test/news/12345", Response article_html) ].

(** The site [broken.test]: the second article makes the fetch fail with
    an exception that is not a [RequestException]. *)
Definition broken_test : list (str * get_outcome) :=
  [ (py "https://broken.test", Response front_html);
    (py "https://broken.test/news/12345", Response article_html);
    (py "https://broken.test/news/67890", OtherException) ].

Definition web : Runtime :=
  runtime (example_com ++ single_test ++ broken_test) parsed.

(** The same web with one more article and the site [double.test], whose
    front page repeats a link. *)
Definition more_pages : list (str * get_outcome) :=
  [ (py "https://example.com/news/with-meta", Response meta_html);
    (py "https://double.test", Response double_html);
    (py "https://example.com/news/with-aside", Response aside_html) ].

Definition wider_web : Runtime :=
  runtime (example_com ++ single_test ++ broken_test ++ more_pages)
          (parsed ++ [(meta_html, meta_soup); (double_html, double_soup);
                      (aside_html, aside_soup)]).

(** *** URLs and records of the examples *)

Definition site : str := py "https://example.com".
Definition first_article : str := py "https://example.com/news/12345".
Definition second_article : str := py "https://example.com/news/67890".
Definition foreign_article : str := py "https://notexample.com/news/777".
Definition tag_page : str := py "https://example.com/news/tag/elections".

Definition untitled_page : str := py "https://example.com/news/untitled-page".
Definition broken_site : str := py "https://broken.test".
Definition single_site : str := py "https://single.test".

Definition three_paragraphs : list str := map py [p1; p2; p3].

Definition first_item : NewsItem :=
  {| url := first_article;
     title := py "Без заголовка";
     content := join (py " ") three_paragraphs |}.

Definition second_item : NewsItem :=
  {| url := second_article;
     title := py "Без заголовка";
     content := join (py " ") three_paragraphs |}.


Definition untitled_item : NewsItem :=
  {| url := untitled_page;
     title := py "Без заголовка";
     content := join (py " ") three_paragraphs |}.

Definition single_item : NewsItem :=
  {| url := py "https://single.test/news/12345";
     title := py "Без заголовка";
     content := join (py " ") three_paragraphs |}.

Definition broken_item : NewsItem :=
  {| url := py "https://broken.test/news/12345";
     title := py "Без заголовка";
     content := join (py " ") three_paragraphs |}.

Definition meta_page : str := py "https://example.com/news/with-meta".
Definition double_site : str := py "https://double.test".

Definition down_site : str := py "https://down.test".
Definition example_com_parsed : ParseResult :=
  {| scheme := py "https"; netloc := py "example.com"; path_ := py "" |}.

Definition meta_item : NewsItem :=
  {| url := meta_page;
     title := py "Council approves budget";
     content := join (py " ") three_paragraphs |}.


End Ref.


(* ================================================================= *)
(** ** Notions the statements use *)

Section Notions.
Context {rt : Runtime}.

(** The paragraphs of more than 20 characters below the tag [root] of the
    document [doc], in document order. *)
Definition survivors (doc : node) (root : path) : list str :=
  filter_paragraphs doc (find_all_at is_p doc root).

(** The body text was produced by a strategy: it is the join of the
    survivors below the root that strategy worked on, and these are the
    paragraphs the uniqueness check will count. *)
Definition produced (st : body_state) : Prop :=
  exists root,
    filtered_paragraphs st = Some (survivors (soup_ st) root)
    /\ content_text st = join (py " ") (survivors (soup_ st) root).

(** The invariant of the body search. *)
Definition body_inv (st : body_state) : Prop :=
  content_text st = [] \/ produced st.

(** The list the uniqueness check counts. *)
Definition counted (st : body_state) : list str :=
  match filtered_paragraphs st with
  | Some filtered => filtered
  | None => []
  end.






(** What the origin check and the exclusion list let through for the site
    whose URL parses to [parsed_url]. *)
Definition admitted (parsed_url : ParseResult) (full_url : str) : Prop :=
  (exists parsed_href,
      urlparse full_url = Ok parsed_href
      /\ contains (netloc parsed_url) (netloc parsed_href) = true)
  /\ is_excluded full_url = false.

End Notions.

(** The title the specification describes: the first non-empty text among
    the candidates, where a [meta] tag gives its [content] attribute and any
    other element its visible text. *)
Definition title_by_spec (soup : node) : str :=
  let text_of (candidate : option node) : str :=
    match candidate with
    | Some c => if is_tag (py "meta") c then get c (py "content") (py "")
                else get_text c
    | None => []
    end in
  match filter nonempty (map text_of (title_candidates soup)) with
  | t :: _ => t
  | [] => default_title
  end.



(** [l1] is [l2] with some members left out: the same order. *)
Inductive subsequence {A : Type} : list A -> list A -> Prop :=
| sub_nil : forall l, subsequence [] l
| sub_take : forall x l1 l2, subsequence l1 l2 -> subsequence (x :: l1) (x :: l2)
| sub_skip : forall x l1 l2, subsequence l1 l2 -> subsequence l1 (x :: l2).

(** The contents of a tag as [walk] goes through them, from index [i]. *)
Fixpoint walk_children (i : nat) (cs : list node) : list (path * node) :=
  match cs with
  | [] => []
  | Gone :: cs' => walk_children (S i) cs'
  | c :: cs' =>
      ([i], c) :: map (fun pd => (i :: fst pd, snd pd)) (walk c)
      ++ walk_children (S i) cs'
  end.

(** Two nodes with the same name, classes and attributes: what a selector
    looks at. *)
Definition same_tag (d d0 : node) : Prop :=
  name_of d = name_of d0 /\ classes_of d = classes_of d0
  /\ forall key, attr key d = attr key d0.

Section DiscoveryNotions.
Context {rt : Runtime}.

(** The links that [detect_news_links] collects from a page before it
    removes the duplicates: those of the containers, or else those of the
    whole page. *)
Definition candidate_links (soup : node) : list node :=
  let news_containers :=
    flat_map (fun selector => select selector soup) container_selectors in
  let news_containers :=
    if negb (nonempty news_containers) then keyword_containers soup
    else news_containers in
  let links_to_check := flat_map container_links news_containers in
  if negb (nonempty links_to_check) then page_links soup
  else links_to_check.

(** A URL whose path matches one of [news_patterns]. *)
Definition article_shaped (full_url : str) : Prop :=
  exists parsed_href,
    urlparse full_url = Ok parsed_href
    /\ existsb (fun pattern => search pattern (path_ parsed_href))
               news_patterns = true.

(** A URL that is the [href] of a link of the page, resolved against
    [base_url]; the [href] is not one that the passes skip. *)
Definition resolved_from (soup : node) (base_url full_url : str) : Prop :=
  exists link href,
    In link (descendants soup) /\ is_link link = true
    /\ attr (py "href") link = Some href
    /\ skip_href href = false
    /\ urljoin base_url href = Ok full_url.



(** A link of the page: what the program puts in [links_to_check]. *)
Definition link_of (soup link : node) : Prop :=
  In link (descendants soup) /\ is_link link = true.

(** [Q] holds of every URL that a pass over [links] can come to accept. *)
Definition accepts (soup : node) (base_url : str) (links : list node)
    (Q : str -> Prop) : Prop :=
  forall link href full_url,
    In link links -> attr (py "href") link = Some href ->
    skip_href href = false -> urljoin base_url href = Ok full_url ->
    Q full_url.

End DiscoveryNotions.

(* ================================================================= *)
(** ** Lemmas on lists and strings *)

Lemma existsb_false_In {A} (f : A -> bool) (l : list A) (x : A) :
  existsb f l = false -> In x l -> f x = false.
Proof.
  induction l as [|y l IH]; simpl; intros H Hin; [contradiction|].
  apply orb_false_iff in H as [Hy Hl].
  destruct Hin as [->|Hin]; auto.
Qed.

Lemma nonempty_false {A} (l : list A) : nonempty l = false -> l = [].
Proof. destruct l; simpl; congruence. Qed.

Lemma len_app {A} (l1 l2 : list A) : len (l1 ++ l2) = (len l1 + len l2)%Z.
Proof. unfold len. rewrite length_app. lia. Qed.


Lemma fold_left_app_flat_map {A B} (f : A -> list B) (l : list A)
    (acc : list B) :
  fold_left (fun acc x => acc ++ f x) l acc = acc ++ flat_map f l.
Proof.
  revert acc. induction l as [|x l IH]; intros acc; simpl.
  - now rewrite app_nil_r.
  - rewrite IH. now rewrite app_assoc.
Qed.

(* ================================================================= *)
(** ** Content extraction *)

Section Extraction.
Context {rt : Runtime}.

Lemma container_loop_inv (containers : list (option path)) (st : body_state) :
  content_text st = [] -> body_inv (container_loop containers st).
Proof.
  revert st. induction containers as [|c rest IH]; intros st Hst; simpl.
  - now left.
  - destruct c as [container|]; [|now apply IH].
    destruct (nonempty (find_all_at is_p _ container)) eqn:Hp.
    + destruct (nonempty (filter_paragraphs _ _)) eqn:Hf.
      * right. exists container. simpl. split; reflexivity.
      * apply IH. exact Hst.
    + apply IH. exact Hst.
Qed.

Lemma main_or_body_inv (st : body_state) :
  body_inv st -> body_inv (main_or_body st).
Proof.
  intros Hst. unfold main_or_body.
  destruct (nonempty (content_text st)) eqn:Hc; simpl; [exact Hst|].
  apply nonempty_false in Hc.
  match goal with |- body_inv (match ?m with _ => _ end) =>
    destruct m as [main_content|] end; [|exact Hst].
  cbv zeta.
  destruct (nonempty (filter_paragraphs _ _)) eqn:Hf.
  - right. exists main_content. simpl. split; reflexivity.
  - left. simpl. exact Hc.
Qed.

Lemma all_paragraphs_inv (st : body_state) :
  body_inv st -> body_inv (all_paragraphs st).
Proof.
  intros Hst. unfold all_paragraphs.
  destruct (nonempty (content_text st)) eqn:Hc; simpl; [exact Hst|].
  apply nonempty_false in Hc.
  cbv zeta.
  destruct (nonempty (filter_paragraphs _ _)) eqn:Hf.
  - right. exists []. simpl. split; reflexivity.
  - left. simpl. exact Hc.
Qed.

(** Whenever the search ends with a body text, the list that the uniqueness
    check reads is the one that text was joined from. *)
Lemma find_content_inv (soup : node) : body_inv (find_content soup).
Proof.
  unfold find_content.
  apply all_paragraphs_inv, main_or_body_inv, container_loop_inv.
  reflexivity.
Qed.

Lemma quality_gate_some (u t : str) (st : body_state) (item : NewsItem) :
  quality_gate u t st = Some item ->
  item = {| url := u; title := t; content := content_text st |}
  /\ content_text st <> []
  /\ (100 <= len (content_text st))%Z
  /\ is_error_page (content_text st) = false
  /\ (3 <= len (match filtered_paragraphs st with
                | Some filtered => set_of filtered []
                | None => []
                end))%Z.
Proof.
  unfold quality_gate.
  destruct (nonempty (content_text st)) eqn:Hn; simpl; [|discriminate].
  destruct (len (content_text st) <? 100)%Z eqn:Hl; [discriminate|].
  destruct (is_error_page (content_text st)) eqn:He; [discriminate|].
  destruct (len _ <? 3)%Z eqn:Hu; [discriminate|].
  intros [= <-]. repeat split.
  - intros E. rewrite E in Hn. discriminate.
  - apply Z.ltb_ge in Hl. exact Hl.
  - apply Z.ltb_ge in Hu. exact Hu.
Qed.

(** A record comes only from a page that was fetched and parsed. *)
Lemma parse_news_content_some (u : str) (item : NewsItem) :
  parse_news_content u = Ok (Some item) ->
  exists html soup,
    fetch_page u = Ok (Some html) /\ html <> []
    /\ BeautifulSoup html = Ok soup
    /\ quality_gate u (find_title soup) (find_content soup) = Some item.
Proof.
  unfold parse_news_content.
  destruct (fetch_page u) as [html|e]; simpl; [|discriminate].
  destruct html as [[|c html]|]; simpl; try discriminate.
  destruct (BeautifulSoup (c :: html)) as [soup|e] eqn:Hs; simpl;
    [|discriminate].
  intros [= H]. exists (c :: html), soup. repeat split; auto. discriminate.
Qed.

Lemma title_loop_no_content (candidates : list (option node))
    (title : option str) :
  (forall c, In (Some c) candidates ->
             get_text c = [] /\ get c (py "content") (py "") = []) ->
  title = None \/ title = Some [] ->
  title_loop candidates title = None
  \/ title_loop candidates title = Some [].
Proof.
  revert title. induction candidates as [|c rest IH]; intros title Hc Ht;
    simpl; [exact Ht|].
  destruct c as [c|].
  - destruct (Hc c (or_introl eq_refl)) as [Htext Hattr].
    rewrite Htext, Hattr. destruct (hasattr_get c); simpl;
      apply IH; auto; intros c' Hin; apply Hc; now right.
  - apply IH; auto. intros c' Hin. apply Hc. now right.
Qed.

Lemma find_some (f : node -> bool) (n c : node) :
  find f n = Some c -> f c = true.
Proof.
  unfold find, find_all.
  destruct (filter f (descendants n)) as [|d l] eqn:E; simpl; [discriminate|].
  intros [= ->].
  assert (Hin : In c (filter f (descendants n))) by (rewrite E; now left).
  apply filter_In in Hin. tauto.
Qed.

Lemma is_tag_hasattr (nm : str) (c : node) :
  is_tag nm c = true -> hasattr_get c = true.
Proof. destruct c; simpl; auto; discriminate. Qed.

Lemma matches_hasattr (sel : selector) (c : node) :
  matches sel c = true -> hasattr_get c = true.
Proof.
  destruct c; simpl; auto; intros H; unfold matches in H;
    apply existsb_exists in H as ([] & _ & H); discriminate.
Qed.

(** Every title candidate is a tag. *)
Lemma title_candidates_tags (soup c : node) :
  In (Some c) (title_candidates soup) -> hasattr_get c = true.
Proof.
  unfold title_candidates. simpl.
  intros [H|[H|[H|[H|[H|[]]]]]]; apply find_some in H.
  - now apply is_tag_hasattr in H.
  - now apply matches_hasattr in H.
  - apply andb_prop in H as [H _]. now apply is_tag_hasattr in H.
  - apply andb_prop in H as [H _]. now apply is_tag_hasattr in H.
  - now apply is_tag_hasattr in H.
Qed.

Lemma title_loop_reads_content (candidates : list (option node))
    (title : option str) :
  (forall c, In (Some c) candidates -> hasattr_get c = true) ->
  title_loop candidates title = title
  \/ title_loop candidates title = Some []
  \/ exists c, In (Some c) candidates
               /\ title_loop candidates title
                  = Some (get c (py "content") (py "")).
Proof.
  revert title. induction candidates as [|c rest IH]; intros title Hc;
    cbn [title_loop]; [now left|].
  destruct c as [c|].
  - rewrite (Hc c (or_introl eq_refl)). cbv iota zeta.
    destruct (nonempty (get c (py "content") (py ""))) eqn:Hn.
    + right. right. exists c. split; [now left|reflexivity].
    + apply nonempty_false in Hn. rewrite Hn.
      destruct (IH (Some []) (fun c' H => Hc c' (or_intror H)))
        as [E|[E|(c' & Hin & E)]].
      * right. left. exact E.
      * right. left. exact E.
      * right. right. exists c'. split; [now right|exact E].
  - destruct (IH title (fun c' H => Hc c' (or_intror H)))
      as [E|[E|(c' & Hin & E)]].
    + left. exact E.
    + right. left. exact E.
    + right. right. exists c'. split; [now right|exact E].
Qed.

(** The title is the fallback literal or the [content] attribute of a
    candidate: the visible text of a candidate is never the title. *)
Lemma find_title_reads_content (soup : node) :
  find_title soup = default_title
  \/ exists c, In (Some c) (title_candidates soup)
               /\ find_title soup = get c (py "content") (py "").
Proof.
  unfold find_title.
  destruct (@title_loop_reads_content (title_candidates soup) None
              (@title_candidates_tags soup)) as [E|[E|(c & Hin & E)]];
    rewrite E; auto.
  destruct (get c (py "content") (py "")) eqn:Hg; [now left|].
  right. exists c. split; [exact Hin|]. now rewrite Hg.
Qed.

(** C2. [parse_news_content] returns no record whose content has fewer than
    100 characters, or contains an error-page marker in its lower-cased
    form, or whose surviving paragraphs (those of the strategy the content
    was joined from) have fewer than 3 distinct members; a fetched page that
    fails one of these checks is rejected with [None]. *)
Theorem quality_gate_holds (u : str) :
  (forall item, parse_news_content u = Ok (Some item) ->
     (100 <= len (content item))%Z
     /\ (forall marker, In marker error_markers ->
                        contains marker (lower (content item)) = false)
     /\ exists html soup root,
          fetch_page u = Ok (Some html) /\ BeautifulSoup html = Ok soup
          /\ content item
             = join (py " ") (survivors (soup_ (find_content soup)) root)
          /\ (3 <= count_unique
                     (survivors (soup_ (find_content soup)) root))%Z)
  /\ (forall html soup,
        fetch_page u = Ok (Some html) -> html <> [] ->
        BeautifulSoup html = Ok soup ->
        (len (content_text (find_content soup)) < 100)%Z
        \/ (exists marker, In marker error_markers
             /\ contains marker (lower (content_text (find_content soup)))
                = true)
        \/ (count_unique (counted (find_content soup)) < 3)%Z ->
        parse_news_content u = Ok None).
Proof.
  split.
  - intros item H.
    apply parse_news_content_some in H as (html & soup & Hf & Hne & Hs & Hq).
    apply quality_gate_some in Hq as (-> & Hc & Hlen & Herr & Hu). simpl.
    split; [exact Hlen|]. split.
    + intros marker Hin.
      exact (existsb_false_In _ _ _ Herr Hin).
    + destruct (find_content_inv soup) as [E|(root & Hfp & Hct)];
        [contradiction|].
      exists html, soup, root. rewrite Hfp in Hu.
      repeat split; auto.
  - intros html soup Hf Hne Hs Hbad.
    unfold parse_news_content. rewrite Hf. simpl.
    destruct html as [|c html]; [contradiction|]. simpl. rewrite Hs. simpl.
    f_equal. unfold quality_gate.
    destruct (nonempty (content_text (find_content soup))); simpl; auto.
    destruct Hbad as [Hl|[(marker & Hin & Hm)|Hu]].
    + apply Z.ltb_lt in Hl. now rewrite Hl.
    + destruct (len _ <? 100)%Z; auto.
      assert (He : is_error_page (content_text (find_content soup)) = true).
      { apply existsb_exists. exists marker. auto. }
      now rewrite He.
    + destruct (len _ <? 100)%Z; auto.
      destruct (is_error_page _); auto.
      unfold count_unique, counted in Hu.
      destruct (filtered_paragraphs (find_content soup));
        apply Z.ltb_lt in Hu; try rewrite Hu; reflexivity.
Qed.

(** C5, as the code has it.  When no title candidate of the page yields
    text, neither as visible text nor through a [content] attribute, the
    title of the returned record is the fallback literal of the source,
    "Без заголовка". *)
Theorem fallback_title (u html : str) (soup : node) (item : NewsItem) :
  fetch_page u = Ok (Some html) ->
  BeautifulSoup html = Ok soup ->
  (forall c, In (Some c) (title_candidates soup) ->
             get_text c = [] /\ get c (py "content") (py "") = []) ->
  parse_news_content u = Ok (Some item) ->
  title item = py "Без заголовка".
Proof.
  intros Hf Hs Hc H.
  apply parse_news_content_some in H as (html' & soup' & Hf' & _ & Hs' & Hq).
  rewrite Hf in Hf'. injection Hf' as <-.
  rewrite Hs in Hs'. injection Hs' as <-.
  apply quality_gate_some in Hq as (-> & _). simpl.
  unfold find_title.
  destruct (@title_loop_no_content (title_candidates soup) None Hc
              (or_introl eq_refl)) as [E|E]; rewrite E; reflexivity.
Qed.

End Extraction.

(* ================================================================= *)
(** ** Link discovery *)

Section Discovery.
Context {rt : Runtime}.

Lemma Forall_snoc {A} (P : A -> Prop) (l : list A) (x : A) :
  Forall P l -> P x -> Forall P (l ++ [x]).
Proof. intros Hl Hx. apply Forall_app. split; auto. Qed.

(** The main pass accepts only URLs that passed the origin check and the
    exclusion list. *)
Lemma main_pass_admitted (base_url : str) (parsed_url : ParseResult)
    (max_links : Z) (links : list node) :
  forall news_links out,
    main_pass base_url parsed_url max_links links news_links = Ok out ->
    Forall (admitted parsed_url) news_links ->
    Forall (admitted parsed_url) out.
Proof.
  induction links as [|link rest IH]; intros news_links out H Hacc;
    cbn [main_pass] in H.
  - injection H as <-. exact Hacc.
  - destruct (getitem link (py "href")) as [href|]; cbn [bind] in H;
      [|discriminate].
    destruct (skip_href href); [eauto|].
    destruct (urljoin base_url href) as [full_url|]; cbn [bind] in H;
      [|discriminate].
    destruct (urlparse full_url) as [parsed_href|] eqn:Hparse;
      cbn [bind] in H; [|discriminate].
    destruct (contains (netloc parsed_url) (netloc parsed_href)) eqn:Horigin;
      cbn [negb] in H; [|eauto].
    destruct (is_excluded full_url) eqn:Hexcluded; [eauto|].
    assert (Hnew : admitted parsed_url full_url).
    { split; [exists parsed_href; auto|exact Hexcluded]. }
    cbv zeta in H.
    match type of H with
    | (if (len ?nl >=? _)%Z then _ else _) = _ =>
        assert (Hnl : Forall (admitted parsed_url) nl)
    end.
    { match goal with |- Forall _ (if ?b then _ else _) => destruct b end;
        [apply Forall_snoc|]; auto. }
    match type of H with (if ?b then _ else _) = _ => destruct b end;
      [injection H as <-; exact Hnl|eauto].
Qed.

Lemma pattern_loop_cases (patterns : list pattern) (path full_url : str)
    (news_links : list str) :
  pattern_loop patterns path full_url news_links = news_links
  \/ pattern_loop patterns path full_url news_links
     = news_links ++ [full_url].
Proof.
  induction patterns as [|p rest IH]; simpl; [now left|].
  destruct (search p path); [|exact IH].
  destruct (negb (mem full_url news_links)); [now right|exact IH].
Qed.

(** So does the last-resort pass. *)
Lemma last_resort_admitted (base_url : str) (parsed_url : ParseResult)
    (max_links : Z) (links : list node) :
  forall news_links out,
    last_resort base_url parsed_url max_links links news_links = Ok out ->
    Forall (admitted parsed_url) news_links ->
    Forall (admitted parsed_url) out.
Proof.
  induction links as [|link rest IH]; intros news_links out H Hacc;
    cbn [last_resort] in H.
  - injection H as <-. exact Hacc.
  - destruct (getitem link (py "href")) as [href|]; cbn [bind] in H;
      [|discriminate].
    destruct (skip_href href); [eauto|].
    destruct (urljoin base_url href) as [full_url|]; cbn [bind] in H;
      [|discriminate].
    destruct (urlparse full_url) as [parsed_href|] eqn:Hparse;
      cbn [bind] in H; [|discriminate].
    destruct (contains (netloc parsed_url) (netloc parsed_href)) eqn:Horigin;
      cbn [negb] in H; [|eauto].
    destruct (is_excluded full_url) eqn:Hexcluded; [eauto|].
    assert (Hnew : admitted parsed_url full_url).
    { split; [exists parsed_href; auto|exact Hexcluded]. }
    cbv zeta in H.
    match type of H with
    | (if (len ?nl >=? _)%Z then _ else _) = _ =>
        assert (Hnl : Forall (admitted parsed_url) nl)
    end.
    { destruct (pattern_loop_cases news_patterns (path_ parsed_href)
                  full_url news_links) as [->| ->];
        [|apply Forall_snoc]; auto. }
    match type of H with (if ?b then _ else _) = _ => destruct b end;
      [injection H as <-; exact Hnl|eauto].
Qed.

Context {ho : HashOrder}.

(** Every URL that discovery returns was admitted by one of the passes. *)
Lemma detect_news_links_admitted (u : str) (max_links : Z)
    (links : list str) :
  detect_news_links u max_links = Ok links ->
  links = []
  \/ exists parsed_url,
       urlparse u = Ok parsed_url /\ Forall (admitted parsed_url) links.
Proof.
  unfold detect_news_links. intros H.
  destruct (fetch_page u) as [html|]; cbn [bind] in H; [|discriminate].
  destruct (no_markup html); [left; now injection H as <-|].
  destruct (BeautifulSoup (markup html)) as [soup|]; cbn [bind] in H;
    [|discriminate].
  destruct (urlparse u) as [parsed_url|]; cbn [bind] in H; [|discriminate].
  cbv zeta in H.
  right. exists parsed_url. split; [reflexivity|].
  match type of H with bind ?c _ = _ =>
    destruct c as [first|] eqn:Hmain end; cbn [bind] in H; [|discriminate].
  apply main_pass_admitted in Hmain; [|constructor].
  destruct (negb (nonempty first)).
  - match type of H with bind ?c _ = _ =>
      destruct c as [second|] eqn:Hlast end; cbn [bind] in H; [|discriminate].
    injection H as <-.
    apply last_resort_admitted in Hlast; [|exact Hmain].
    eapply Permutation_Forall; [|exact Hlast].
    apply Permutation_sym, str_order_perm.
  - cbn [bind] in H. injection H as <-.
    eapply Permutation_Forall; [|exact Hmain].
    apply Permutation_sym, str_order_perm.
Qed.

(** C6. A URL whose lower-cased absolute form contains an entry of the
    exclusion list is not among the URLs that [detect_news_links] returns,
    whatever its path matches: both the main pass and the last-resort pass
    drop it before any pattern is tried. *)
Theorem excluded_never_returned (u : str) (max_links : Z)
    (links : list str) (full_url pattern : str) :
  detect_news_links u max_links = Ok links ->
  In pattern exclude_patterns ->
  contains pattern (lower full_url) = true ->
  ~ In full_url links.
Proof.
  intros H Hp Hc Hin.
  apply detect_news_links_admitted in H as [->|(parsed_url & _ & Hall)];
    [contradiction|].
  rewrite Forall_forall in Hall. destruct (Hall _ Hin) as [_ Hex].
  unfold is_excluded in Hex.
  rewrite (existsb_false_In _ _ _ Hex Hp) in Hc. discriminate.
Qed.

(** What the origin test of the two passes enforces: the network location
    of a returned URL contains that of the site URL as a substring. *)
Lemma returned_host_contains_site_host (u : str) (max_links : Z)
    (links : list str) (full_url : str) :
  detect_news_links u max_links = Ok links ->
  In full_url links ->
  exists parsed_url parsed_href,
    urlparse u = Ok parsed_url /\ urlparse full_url = Ok parsed_href
    /\ contains (netloc parsed_url) (netloc parsed_href) = true.
Proof.
  intros H Hin.
  apply detect_news_links_admitted in H as [->|(parsed_url & Hu & Hall)];
    [contradiction|].
  rewrite Forall_forall in Hall.
  destruct (Hall _ Hin) as [(parsed_href & Hp & Hc) _].
  exists parsed_url, parsed_href. auto.
Qed.

End Discovery.

(* ================================================================= *)
(** ** Site processing and the endpoint *)

Section Orchestration.
Context {rt : Runtime}.

(** The loop stops at the first append that reaches [max_news]: the list
    grows past [max_news] only when it was not below it before. *)
Lemma news_loop_length (max_news : Z) (news_links : list str) :
  forall result,
    (len (fst (news_loop news_links max_news result))
     <= Z.max max_news (len result + 1))%Z.
Proof.
  induction news_links as [|news_url rest IH]; intros result;
    cbn [news_loop].
  - simpl. lia.
  - destruct (parse_news_content news_url) as [[news_data|]|e].
    + destruct (len (result ++ [news_data]) >=? max_news)%Z eqn:Hcap.
      * simpl. rewrite len_app. cbn. lia.
      * specialize (IH (result ++ [news_data])).
        rewrite len_app in IH, Hcap. change (len [news_data]) with 1%Z in *.
        rewrite Z.geb_leb in Hcap. apply Z.leb_gt in Hcap. lia.
    + specialize (IH result). lia.
    + simpl. lia.
Qed.

(** An exception at a link ends the loop with what the links before it
    gave. *)
Lemma news_loop_failure (max_news : Z) (before : list str) (failing : str)
    (rest : list str) (e : exn) :
  parse_news_content failing = Raise e ->
  forall result,
    fst (news_loop (before ++ failing :: rest) max_news result)
    = fst (news_loop before max_news result).
Proof.
  intros Hfail. induction before as [|news_url before IH]; intros result;
    cbn [news_loop app].
  - now rewrite Hfail.
  - destruct (parse_news_content news_url) as [[news_data|]|e'];
      [|apply IH|reflexivity].
    destruct (len (result ++ [news_data]) >=? max_news)%Z;
      [reflexivity|apply IH].
Qed.

Context {ho : HashOrder}.

Lemma process_site_cases (u : str) (max_news : Z) :
  process_site u max_news = []
  \/ exists news_links,
       detect_news_links u (max_news * 2) = Ok news_links
       /\ process_site u max_news
          = fst (news_loop news_links max_news []).
Proof.
  unfold process_site.
  destruct (detect_news_links u (max_news * 2)) as [news_links|e];
    [|now left].
  destruct (negb (nonempty news_links)); [now left|].
  right. exists news_links. split; [reflexivity|].
  destruct (news_loop news_links max_news []) as [result [|e]]; reflexivity.
Qed.

(** A site gives at most [max_news] records when [max_news] is positive,
    and at most one otherwise. *)
Lemma process_site_length (u : str) (max_news : Z) :
  (len (process_site u max_news) <= Z.max max_news 1)%Z.
Proof.
  destruct (process_site_cases u max_news) as [->|(news_links & _ & ->)].
  - cbn. lia.
  - apply (news_loop_length max_news news_links []).
Qed.

Lemma flat_map_length_bound {A B} (f : A -> list B) (bound : Z)
    (l : list A) :
  (forall x, len (f x) <= bound)%Z ->
  (len (flat_map f l) <= bound * len l)%Z.
Proof.
  intros Hf. induction l as [|x l IH]; simpl.
  - cbn. lia.
  - rewrite len_app. specialize (Hf x).
    replace (len (x :: l)) with (len l + 1)%Z
      by (unfold len; cbn [List.length]; lia).
    lia.
Qed.

(** C10. The endpoint processes every site with the default cap of 5: the
    response is the concatenation, in request order, of
    [process_site site_url 5] over the sites, each of which contributes at
    most 5 records; the request carries nothing but the URLs. *)
Theorem endpoint_uses_default_cap (urls : list str) (resp : NewsResponse) :
  parse_news urls = Ok resp ->
  news resp = flat_map (fun site_url => process_site site_url 5) urls
  /\ (forall site_url, (len (process_site site_url 5) <= 5)%Z)
  /\ (total resp <= 5 * len urls)%Z.
Proof.
  unfold parse_news. destruct (negb (nonempty urls)); [discriminate|].
  intros [= <-]. cbn [news total].
  rewrite fold_left_app_flat_map. cbn [app].
  assert (Hsite : forall site_url, (len (process_site site_url 5) <= 5)%Z).
  { intros site_url. pose proof (process_site_length site_url 5). lia. }
  repeat split; auto.
  now apply flat_map_length_bound.
Qed.

(** C7. A failure while one site is processed stays in that site.
    [parse_news] raises only for an empty list of URLs, and then the
    input-validation error; for any other list it answers with the
    concatenation of what each site gives on its own.  A site whose link
    discovery raises gives no records; a site where the extraction of a
    link raises gives exactly the records accumulated from the links
    before it. *)
Theorem site_failures_are_contained :
  (forall urls e, parse_news urls = Raise e ->
                  urls = [] /\ e = HTTPException 400)
  /\ (forall urls, urls <> [] ->
        parse_news urls
        = Ok {| total :=
                  len (flat_map (fun site_url => process_site site_url 5) urls);
                news := flat_map (fun site_url => process_site site_url 5) urls |})
  /\ (forall u max_news e,
        detect_news_links u (max_news * 2) = Raise e ->
        process_site u max_news = [])
  /\ (forall u max_news before failing rest e,
        detect_news_links u (max_news * 2) = Ok (before ++ failing :: rest) ->
        parse_news_content failing = Raise e ->
        process_site u max_news = fst (news_loop before max_news [])).
Proof.
  split; [|split; [|split]].
  - intros urls e H. unfold parse_news in H.
    destruct urls; [|discriminate]. cbn [nonempty negb] in H.
    injection H as <-. split; reflexivity.
  - intros urls Hne. unfold parse_news.
    destruct urls as [|site_url urls]; [contradiction|]. cbn [nonempty negb].
    now rewrite fold_left_app_flat_map.
  - intros u max_news e H. unfold process_site. now rewrite H.
  - intros u max_news before failing rest e Hd Hfail.
    unfold process_site. rewrite Hd.
    replace (negb (nonempty (before ++ failing :: rest))) with false
      by (destruct before; reflexivity).
    rewrite <- (@news_loop_failure max_news before failing rest e Hfail []).
    destruct (news_loop _ max_news []) as [result [|e']]; reflexivity.
Qed.

End Orchestration.


(* ================================================================= *)
(** ** The program on concrete pages *)

Import Ref.

Example discovery_on_the_front_page :
  @detect_news_links web inserted site 10
  = Ok [first_article; second_article; foreign_article].
Proof. vm_compute. reflexivity. Qed.

Example extraction_of_the_first_article :
  @parse_news_content web first_article = Ok (Some first_item).
Proof. vm_compute. reflexivity. Qed.

Example the_site_with_the_default_cap :
  @process_site web inserted site 5 = [first_item; second_item].
Proof. vm_compute. reflexivity. Qed.

Example dated_path_matches :
  map (fun pattern => @search web pattern (py "/2024/5/17/budget"))
      news_patterns
  = [true; false; false; true; false; false; false; false; false].
Proof. vm_compute. reflexivity. Qed.

Example short_path_matches_nothing :
  existsb (fun pattern => @search web pattern (py "/about/us")) news_patterns
  = false
  /\ @segment_heuristics web (py "/about/us") = false
  /\ @segment_heuristics web (py "/region/item7") = true.
Proof.
  split; [vm_compute; reflexivity|]. split; vm_compute; reflexivity.
Qed.

Example navigation_is_removed :
  let doc :=
    document [el "article" [el "nav" [paragraph p1]; paragraph p2]] in
  remove_navigation doc [0%nat]
  = document [el "article" [Gone; paragraph p2]]
  /\ survivors (remove_navigation doc [0%nat]) [0%nat] = [py p2].
Proof. split; vm_compute; reflexivity. Qed.

Example a_short_page_is_rejected :
  @parse_news_content
     (runtime [(site, Response single_html)] parsed) site = Ok None.
Proof. vm_compute. reflexivity. Qed.

(** C1 (the code departs from the claim).  On a page whose first [h1] reads
    "Breaking headline" and whose [title] reads "Example News", the title
    that the specification describes is the text of the heading, but
    [parse_news_content] returns the fallback literal: every candidate is a
    tag, a tag has a [get], and so only [content] attributes are read. *)
Theorem heading_text_is_not_used :
  find (is_tag (py "h1")) article_soup
  = Some (el "h1" [Text (py "Breaking headline")])
  /\ title_by_spec article_soup = py "Breaking headline"
  /\ find_title article_soup = py "Без заголовка"
  /\ @parse_news_content web first_article
     = Ok (Some {| url := first_article;
                   title := py "Без заголовка";
                   content := join (py " ") three_paragraphs |}).
Proof.
  split; [vm_compute; reflexivity|].
  split; [vm_compute; reflexivity|].
  split; vm_compute; reflexivity.
Qed.

(** C3 (the code departs from the claim).  With [max_news = 0] a site with
    one article link gives one record: the cap is looked at only after a
    record has been appended, in [process_site] as in
    [detect_news_links]. *)
Theorem zero_cap_returns_a_record :
  @detect_news_links web inserted (py "https://single.test") (0 * 2)
  = Ok [py "https://single.test/news/12345"]
  /\ @process_site web inserted (py "https://single.test") 0 = [single_item]
  /\ (len (@process_site web inserted (py "https://single.test") 0) > 0)%Z.
Proof.
  split; [vm_compute; reflexivity|].
  split; vm_compute; reflexivity.
Qed.

(** C4 (the code departs from the claim).  The front page of
    [example.com] links to [notexample.com]; the origin test asks only that
    the site's network location occurs in the link's, so discovery returns
    the link, to another host and another domain. *)
Lemma foreign_host_is_returned :
  exists links parsed_url parsed_href,
    @detect_news_links web inserted site 10 = Ok links
    /\ In foreign_article links
    /\ @urlparse web site = Ok parsed_url
    /\ @urlparse web foreign_article = Ok parsed_href
    /\ netloc parsed_url = py "example.com"
    /\ netloc parsed_href = py "notexample.com"
    /\ netloc parsed_href <> netloc parsed_url.
Proof.
  eexists _, _, _.
  split; [apply discovery_on_the_front_page|].
  split; [right; right; left; reflexivity|].
  split; [vm_compute; reflexivity|].
  split; [vm_compute; reflexivity|].
  split; [vm_compute; reflexivity|].
  split; [vm_compute; reflexivity|].
  vm_compute. discriminate.
Qed.

(** C5 fails as stated: on a page without any title source the title is the
    literal of the source, which is not "untitled". *)
Lemma fallback_title_is_not_untitled :
  title_candidates plain_soup = [None; None; None; None; None]
  /\ @parse_news_content web second_article = Ok (Some second_item)
  /\ title second_item = py "Без заголовка"
  /\ title second_item <> py "untitled".
Proof.
  split; [vm_compute; reflexivity|].
  split; [vm_compute; reflexivity|].
  split; [vm_compute; reflexivity|].
  vm_compute. discriminate.
Qed.



(* ================================================================= *)
(** ** The theorems at concrete pages *)

(** C2 on the first article of the example site, and on a page too short
    to be an article. *)
Lemma quality_gate_holds_witness :
  @parse_news_content web first_article = Ok (Some first_item)
  /\ (100 <= len (content first_item))%Z
  /\ (forall marker, In marker error_markers ->
        contains marker (@lower web (content first_item)) = false)
  /\ @parse_news_content
       (runtime [(site, Response single_html)] parsed) site = Ok None.
Proof.
  destruct (@quality_gate_holds web first_article) as [Hrecord _].
  destruct (Hrecord first_item) as (Hlen & Hmark & _);
    [vm_compute; reflexivity|].
  destruct (@quality_gate_holds
              (runtime [(site, Response single_html)] parsed) site)
    as [_ Hreject].
  split; [vm_compute; reflexivity|].
  split; [exact Hlen|]. split; [exact Hmark|].
  apply (Hreject single_html single_soup).
  - vm_compute; reflexivity.
  - vm_compute; discriminate.
  - vm_compute; reflexivity.
  - left. vm_compute; reflexivity.
Defined.

(** C5 (amended) on a page whose heading and document title are empty. *)
Lemma fallback_title_witness :
  title_candidates untitled_soup
  = [Some (el "h1" [Text (py " ")]); None; None; None; Some (el "title" [])]
  /\ title untitled_item = py "Без заголовка".
Proof.
  split; [vm_compute; reflexivity|].
  apply (@fallback_title web untitled_page untitled_html untitled_soup).
  - vm_compute; reflexivity.
  - vm_compute; reflexivity.
  - intros c Hin. vm_compute in Hin.
    repeat (destruct Hin as [Hin|Hin];
            [try discriminate Hin; injection Hin as <-;
             split; vm_compute; reflexivity|]).
    contradiction.
  - vm_compute; reflexivity.
Defined.

(** C6 on the front page: the link to the tag page matches a pattern and
    is not returned. *)
Lemma excluded_never_returned_witness :
  existsb (fun pattern => @search web pattern (py "/news/tag/elections"))
          news_patterns = true
  /\ ~ In tag_page [first_article; second_article; foreign_article].
Proof.
  split; [vm_compute; reflexivity|].
  apply (@excluded_never_returned web inserted site 10
           [first_article; second_article; foreign_article]
           tag_page (py "/tag/")).
  - vm_compute; reflexivity.
  - vm_compute. left. reflexivity.
  - vm_compute; reflexivity.
Defined.

(** The origin test on the front page. *)
Lemma returned_host_contains_site_host_witness :
  exists parsed_url parsed_href,
    @urlparse web site = Ok parsed_url
    /\ @urlparse web first_article = Ok parsed_href
    /\ contains (netloc parsed_url) (netloc parsed_href) = true.
Proof.
  apply (@returned_host_contains_site_host web inserted site 10
           [first_article; second_article; foreign_article] first_article).
  - vm_compute; reflexivity.
  - left. reflexivity.
Defined.

(** C10 on a request for two sites. *)
Lemma endpoint_uses_default_cap_witness :
  let resp := {| total := 3;
                 news := [first_item; second_item; single_item] |} in
  news resp
  = flat_map (fun site_url => @process_site web inserted site_url 5)
             [site; single_site]
  /\ (forall site_url, (len (@process_site web inserted site_url 5) <= 5)%Z)
  /\ (total resp <= 5 * len [site; single_site])%Z.
Proof.
  apply (@endpoint_uses_default_cap web inserted [site; single_site]).
  vm_compute; reflexivity.
Defined.

(** C7 on a request for two sites, the first of which fails at its second
    link. *)
Lemma site_failures_are_contained_witness :
  @detect_news_links web inserted broken_site (5 * 2)
  = Ok [py "https://broken.test/news/12345";
        py "https://broken.test/news/67890"]
  /\ @parse_news_content web (py "https://broken.test/news/67890")
     = Raise Exception
  /\ @process_site web inserted broken_site 5 = [broken_item]
  /\ @parse_news web inserted [broken_site; single_site]
     = Ok {| total := 2; news := [broken_item; single_item] |}.
Proof.
  destruct (@site_failures_are_contained web inserted)
    as (_ & Hbatch & _ & Hpartial).
  split; [vm_compute; reflexivity|].
  split; [vm_compute; reflexivity|].
  split.
  - rewrite (Hpartial broken_site 5%Z [py "https://broken.test/news/12345"]
               (py "https://broken.test/news/67890") [] Exception).
    + vm_compute; reflexivity.
    + vm_compute; reflexivity.
    + vm_compute; reflexivity.
  - rewrite (Hbatch [broken_site; single_site]).
    + vm_compute; reflexivity.
    + discriminate.
Defined.

(* ================================================================= *)
(** ** Further properties of the program *)

Lemma str_eqb_eq (a b : str) : str_eqb a b = true <-> a = b.
Proof.
  revert b. induction a as [|x a IH]; intros [|y b]; simpl;
    try (split; [discriminate|discriminate]); [tauto|].
  rewrite andb_true_iff, N.eqb_eq, IH.
  split; [intros [-> ->]; reflexivity|intros [= -> ->]; auto].
Qed.

Lemma mem_In (x : str) (l : list str) : mem x l = true <-> In x l.
Proof.
  unfold mem. rewrite existsb_exists. split.
  - intros (y & Hin & Heq). apply str_eqb_eq in Heq. now subst.
  - intros Hin. exists x. split; [exact Hin|now apply str_eqb_eq].
Qed.

Lemma NoDup_snoc {A} (l : list A) (x : A) :
  NoDup l -> ~ In x l -> NoDup (l ++ [x]).
Proof.
  intros Hl Hx. apply NoDup_app; [exact Hl|repeat constructor; auto|].
  intros y Hy [<-|[]]. auto.
Qed.

Lemma subsequence_In {A} (l1 l2 : list A) (x : A) :
  subsequence l1 l2 -> In x l1 -> In x l2.
Proof.
  induction 1 as [l|y l1 l2 _ IH|y l1 l2 _ IH]; simpl; [tauto| |];
    intuition.
Qed.

Section MoreExtraction.
Context {rt : Runtime}.

Lemma parse_news_content_url (u : str) (item : NewsItem) :
  parse_news_content u = Ok (Some item) -> url item = u.
Proof.
  intros H.
  apply parse_news_content_some in H as (html & soup & _ & _ & _ & Hq).
  apply quality_gate_some in Hq as (-> & _). reflexivity.
Qed.

Lemma default_title_not_empty : default_title <> [].
Proof. vm_compute. discriminate. Qed.

Lemma find_title_not_empty (soup : node) : find_title soup <> [].
Proof.
  unfold find_title.
  destruct (title_loop (title_candidates soup) None) as [[|c t]|];
    try apply default_title_not_empty.
  discriminate.
Qed.

(** X1. A returned record carries the URL that was asked for and a title
    that is not empty. *)
Theorem record_has_its_url_and_a_title (u : str) (item : NewsItem) :
  parse_news_content u = Ok (Some item) ->
  url item = u /\ title item <> [].
Proof.
  intros H.
  apply parse_news_content_some in H as (html & soup & _ & _ & _ & Hq).
  apply quality_gate_some in Hq as (-> & _). simpl.
  split; [reflexivity|apply find_title_not_empty].
Qed.

(** Candidates without a [content] attribute leave the title as it is; the
    first candidate with one ends the loop. *)
Lemma title_loop_first_content (before : list (option node)) (c : node)
    (after : list (option node)) :
  (forall c', In (Some c') before ->
              hasattr_get c' = true /\ get c' (py "content") (py "") = []) ->
  hasattr_get c = true ->
  get c (py "content") (py "") <> [] ->
  forall title,
    title_loop (before ++ Some c :: after) title
    = Some (get c (py "content") (py "")).
Proof.
  intros Hbefore Hc Hget.
  induction before as [|b before IH]; intros title; cbn [app title_loop].
  - rewrite Hc.
    destruct (get c (py "content") (py "")) eqn:E; [contradiction|].
    reflexivity.
  - destruct b as [b|].
    + destruct (Hbefore b (or_introl eq_refl)) as [Hb Hempty].
      rewrite Hb, Hempty. cbn [nonempty].
      apply IH. intros c' Hin. apply Hbefore. now right.
    + apply IH. intros c' Hin. apply Hbefore. now right.
Qed.

(** X2. The title is the [content] attribute of the first candidate, in the
    order heading, title-ish class, [og:title], [meta name=title],
    [title], whose [content] attribute is not empty. *)
Theorem first_content_attribute_is_the_title (soup : node)
    (before : list (option node)) (c : node) (after : list (option node)) :
  title_candidates soup = before ++ Some c :: after ->
  (forall c', In (Some c') before -> get c' (py "content") (py "") = []) ->
  get c (py "content") (py "") <> [] ->
  find_title soup = get c (py "content") (py "").
Proof.
  intros Hcands Hbefore Hget. unfold find_title.
  assert (Htags : forall c', In (Some c') (before ++ Some c :: after) ->
                             hasattr_get c' = true).
  { intros c' Hin. rewrite <- Hcands in Hin.
    now apply title_candidates_tags in Hin. }
  rewrite Hcands, (@title_loop_first_content before c after).
  - destruct (get c (py "content") (py "")); [contradiction|reflexivity].
  - intros c' Hin. split; [|now apply Hbefore].
    apply Htags. apply in_or_app. now left.
  - apply Htags. apply in_or_app. right. now left.
  - exact Hget.
Qed.

(** X3. A fetched page whose body text has at least 100 characters, no
    error marker, and at least 3 distinct counted paragraphs is returned,
    with that text as its content. *)
Theorem good_page_is_accepted (u html : str) (soup : node) :
  fetch_page u = Ok (Some html) -> html <> [] ->
  BeautifulSoup html = Ok soup ->
  (100 <= len (content_text (find_content soup)))%Z ->
  is_error_page (content_text (find_content soup)) = false ->
  (3 <= count_unique (counted (find_content soup)))%Z ->
  parse_news_content u
  = Ok (Some {| url := u; title := find_title soup;
                content := content_text (find_content soup) |}).
Proof.
  intros Hf Hne Hs Hlen Herr Hu.
  unfold parse_news_content. rewrite Hf. cbn [bind].
  destruct html as [|c html]; [contradiction|]. cbn [no_markup markup].
  rewrite Hs. cbn [bind]. f_equal. unfold quality_gate.
  destruct (content_text (find_content soup)) as [|c0 t] eqn:Ect.
  - cbn in Hlen. lia.
  - cbn [nonempty negb orb]. rewrite Herr.
    apply Z.ltb_ge in Hlen. rewrite Hlen.
    unfold count_unique, counted in Hu.
    destruct (filtered_paragraphs (find_content soup));
      [apply Z.ltb_ge in Hu; rewrite Hu; reflexivity|cbn in Hu; lia].
Qed.

End MoreExtraction.

Section MoreDiscovery.
Context {rt : Runtime}.

(** One more URL in the set, when it was not there. *)
Lemma add_new_NoDup (cond : bool) (full_url : str) (news_links : list str) :
  NoDup news_links ->
  NoDup (if cond && negb (mem full_url news_links)
         then news_links ++ [full_url] else news_links).
Proof.
  intros Hn. destruct cond; cbn [andb]; [|exact Hn].
  destruct (mem full_url news_links) eqn:Hm; cbn [negb]; [exact Hn|].
  apply NoDup_snoc; [exact Hn|].
  intros Hin. apply mem_In in Hin. congruence.
Qed.

Lemma pattern_loop_NoDup (patterns : list pattern) (path full_url : str)
    (news_links : list str) :
  NoDup news_links ->
  NoDup (pattern_loop patterns path full_url news_links).
Proof.
  intros Hn. induction patterns as [|p rest IH]; cbn [pattern_loop];
    [exact Hn|].
  destruct (search p path); [|exact IH].
  destruct (mem full_url news_links) eqn:Hm; cbn [negb]; [exact IH|].
  apply NoDup_snoc; [exact Hn|].
  intros Hin. apply mem_In in Hin. congruence.
Qed.

Lemma pattern_loop_length (patterns : list pattern) (path full_url : str)
    (news_links : list str) :
  (len news_links <= len (pattern_loop patterns path full_url news_links)
   <= len news_links + 1)%Z.
Proof.
  destruct (pattern_loop_cases patterns path full_url news_links)
    as [->| ->]; [lia|].
  rewrite len_app. unfold len. cbn [List.length]. lia.
Qed.

(** What a pass keeps of a property [P] of the set: [P] holds of the
    result when it holds at the start and each addition keeps it. *)
Lemma main_pass_keeps (P : list str -> Prop) (base_url : str)
    (parsed_url : ParseResult) (max_links : Z)
    (Hadd : forall l full_url cond, P l ->
              P (if cond && negb (mem full_url l)
                 then l ++ [full_url] else l))
    (links : list node) :
  forall news_links out,
    main_pass base_url parsed_url max_links links news_links = Ok out ->
    P news_links -> P out.
Proof.
  induction links as [|link rest IH]; intros news_links out H Hacc;
    cbn [main_pass] in H.
  - injection H as <-. exact Hacc.
  - destruct (getitem link (py "href")) as [href|]; cbn [bind] in H;
      [|discriminate].
    destruct (skip_href href); [eauto|].
    destruct (urljoin base_url href) as [full_url|]; cbn [bind] in H;
      [|discriminate].
    destruct (urlparse full_url) as [parsed_href|]; cbn [bind] in H;
      [|discriminate].
    destruct (negb (contains (netloc parsed_url) (netloc parsed_href)));
      [eauto|].
    destruct (is_excluded full_url); [eauto|].
    cbv zeta in H.
    match type of H with
    | (if (len (if ?c && _ then _ else _) >=? _)%Z then _ else _) = _ =>
        pose proof (Hadd news_links full_url c Hacc) as Hnew
    end.
    match type of H with (if ?b then _ else _) = _ => destruct b end;
      [injection H as <-; exact Hnew|eauto].
Qed.

Lemma last_resort_keeps (P : list str -> Prop) (base_url : str)
    (parsed_url : ParseResult) (max_links : Z)
    (Hadd : forall l path full_url, P l ->
              P (pattern_loop news_patterns path full_url l))
    (links : list node) :
  forall news_links out,
    last_resort base_url parsed_url max_links links news_links = Ok out ->
    P news_links -> P out.
Proof.
  induction links as [|link rest IH]; intros news_links out H Hacc;
    cbn [last_resort] in H.
  - injection H as <-. exact Hacc.
  - destruct (getitem link (py "href")) as [href|]; cbn [bind] in H;
      [|discriminate].
    destruct (skip_href href); [eauto|].
    destruct (urljoin base_url href) as [full_url|]; cbn [bind] in H;
      [|discriminate].
    destruct (urlparse full_url) as [parsed_href|]; cbn [bind] in H;
      [|discriminate].
    destruct (negb (contains (netloc parsed_url) (netloc parsed_href)));
      [eauto|].
    destruct (is_excluded full_url); [eauto|].
    cbv zeta in H.
    pose proof (Hadd news_links (path_ parsed_href) full_url Hacc) as Hnew.
    match type of H with (if ?b then _ else _) = _ => destruct b end;
      [injection H as <-; exact Hnew|eauto].
Qed.

(** The passes stop at the first addition that reaches [max_links]. *)
Lemma main_pass_length (base_url : str) (parsed_url : ParseResult)
    (max_links : Z) (links : list node) :
  forall news_links out,
    main_pass base_url parsed_url max_links links news_links = Ok out ->
    (len news_links < Z.max max_links 1)%Z ->
    (len out <= Z.max max_links 1)%Z.
Proof.
  induction links as [|link rest IH]; intros news_links out H Hacc;
    cbn [main_pass] in H.
  - injection H as <-. lia.
  - destruct (getitem link (py "href")) as [href|]; cbn [bind] in H;
      [|discriminate].
    destruct (skip_href href); [eauto|].
    destruct (urljoin base_url href) as [full_url|]; cbn [bind] in H;
      [|discriminate].
    destruct (urlparse full_url) as [parsed_href|]; cbn [bind] in H;
      [|discriminate].
    destruct (negb (contains (netloc parsed_url) (netloc parsed_href)));
      [eauto|].
    destruct (is_excluded full_url); [eauto|].
    cbv zeta in H.
    match type of H with
    | (if (len ?nl >=? _)%Z then _ else _) = _ => set (added := nl) in *
    end.
    assert (Hnl : (len news_links <= len added <= len news_links + 1)%Z).
    { subst added.
      match goal with |- context [if ?b then _ else _] => destruct b end;
        [rewrite len_app|]; unfold len; cbn [List.length]; lia. }
    clearbody added.
    match type of H with (if (?a >=? ?b)%Z then _ else _) = _ =>
      destruct (a >=? b)%Z eqn:Hcap end.
    + injection H as <-. lia.
    + rewrite Z.geb_leb in Hcap. apply Z.leb_gt in Hcap.
      eapply IH; [exact H|lia].
Qed.

Lemma last_resort_length (base_url : str) (parsed_url : ParseResult)
    (max_links : Z) (links : list node) :
  forall news_links out,
    last_resort base_url parsed_url max_links links news_links = Ok out ->
    (len news_links < Z.max max_links 1)%Z ->
    (len out <= Z.max max_links 1)%Z.
Proof.
  induction links as [|link rest IH]; intros news_links out H Hacc;
    cbn [last_resort] in H.
  - injection H as <-. lia.
  - destruct (getitem link (py "href")) as [href|]; cbn [bind] in H;
      [|discriminate].
    destruct (skip_href href); [eauto|].
    destruct (urljoin base_url href) as [full_url|]; cbn [bind] in H;
      [|discriminate].
    destruct (urlparse full_url) as [parsed_href|]; cbn [bind] in H;
      [|discriminate].
    destruct (negb (contains (netloc parsed_url) (netloc parsed_href)));
      [eauto|].
    destruct (is_excluded full_url); [eauto|].
    cbv zeta in H.
    pose proof (pattern_loop_length news_patterns (path_ parsed_href)
                  full_url news_links) as Hnl.
    match type of H with
    | (if (len ?nl >=? _)%Z then _ else _) = _ => set (added := nl) in *
    end.
    clearbody added.
    match type of H with (if (?a >=? ?b)%Z then _ else _) = _ =>
      destruct (a >=? b)%Z eqn:Hcap end.
    + injection H as <-. lia.
    + rewrite Z.geb_leb in Hcap. apply Z.leb_gt in Hcap.
      eapply IH; [exact H|lia].
Qed.

(** The last-resort pass adds a URL only when a pattern matches its path. *)
Lemma pattern_loop_shaped (patterns : list pattern) (path full_url : str)
    (news_links : list str) :
  pattern_loop patterns path full_url news_links = news_links
  \/ (pattern_loop patterns path full_url news_links
      = news_links ++ [full_url]
      /\ existsb (fun pattern => search pattern path) patterns = true).
Proof.
  induction patterns as [|p rest IH]; cbn [pattern_loop existsb];
    [now left|].
  destruct (search p path); cbn [orb]; [|exact IH].
  destruct (negb (mem full_url news_links)); [now right|].
  destruct IH as [E|[E _]]; [now left|now right].
Qed.

(** X4. The last-resort pass returns only URLs whose path matches one of
    the article patterns; the segment and headline heuristics of the main
    pass play no part in it. *)
Theorem last_resort_accepts_only_patterns (base_url : str)
    (parsed_url : ParseResult) (max_links : Z) (all_links : list node)
    (out : list str) (full_url : str) :
  last_resort base_url parsed_url max_links all_links [] = Ok out ->
  In full_url out ->
  article_shaped full_url.
Proof.
  intros H Hin.
  assert (Hall : forall links news_links out',
             last_resort base_url parsed_url max_links links news_links
             = Ok out' ->
             Forall article_shaped news_links -> Forall article_shaped out').
  { induction links as [|link rest IH]; intros news_links out' H' Hacc;
      cbn [last_resort] in H'.
    - injection H' as <-. exact Hacc.
    - destruct (getitem link (py "href")) as [href|]; cbn [bind] in H';
        [|discriminate].
      destruct (skip_href href); [eauto|].
      destruct (urljoin base_url href) as [u'|]; cbn [bind] in H';
        [|discriminate].
      destruct (urlparse u') as [parsed_href|] eqn:Hparse; cbn [bind] in H';
        [|discriminate].
      destruct (negb (contains (netloc parsed_url) (netloc parsed_href)));
        [eauto|].
      destruct (is_excluded u'); [eauto|].
      cbv zeta in H'.
      assert (Hnew : Forall article_shaped
                       (pattern_loop news_patterns (path_ parsed_href) u'
                                     news_links)).
      { destruct (pattern_loop_shaped news_patterns (path_ parsed_href) u'
                    news_links) as [->|[-> Hs]]; [exact Hacc|].
        apply Forall_snoc; [exact Hacc|]. exists parsed_href. auto. }
      match type of H' with (if ?b then _ else _) = _ => destruct b end;
        [injection H' as <-; exact Hnew|eauto]. }
  specialize (Hall all_links [] out H (Forall_nil _)).
  rewrite Forall_forall in Hall. auto.
Qed.

Context {ho : HashOrder}.

(** The set that the two passes build, before it is turned into a list. *)
Lemma detect_news_links_set (P : list str -> Prop) (u : str)
    (max_links : Z) (links : list str)
    (Hnil : P [])
    (Hmain : forall l full_url cond, P l ->
               P (if cond && negb (mem full_url l)
                  then l ++ [full_url] else l))
    (Hlast : forall l path full_url, P l ->
               P (pattern_loop news_patterns path full_url l)) :
  detect_news_links u max_links = Ok links ->
  exists news_links, P news_links /\ links = str_order news_links.
Proof.
  unfold detect_news_links. intros H.
  destruct (fetch_page u) as [html|]; cbn [bind] in H; [|discriminate].
  destruct (no_markup html).
  { injection H as <-. exists []. split; [exact Hnil|].
    symmetry. apply Permutation_nil. apply Permutation_sym, str_order_perm. }
  destruct (BeautifulSoup (markup html)) as [soup|]; cbn [bind] in H;
    [|discriminate].
  destruct (urlparse u) as [parsed_url|]; cbn [bind] in H; [|discriminate].
  cbv zeta in H.
  match type of H with bind ?c _ = _ =>
    destruct c as [first|] eqn:Hfirst end; cbn [bind] in H; [|discriminate].
  apply (main_pass_keeps P) in Hfirst; auto.
  destruct (negb (nonempty first)).
  - match type of H with bind ?c _ = _ =>
      destruct c as [second|] eqn:Hsecond end; cbn [bind] in H;
      [|discriminate].
    injection H as <-. exists second. split; [|reflexivity].
    apply (last_resort_keeps P) in Hsecond; auto.
  - cbn [bind] in H. injection H as <-. exists first. auto.
Qed.

(** X5. The list that [detect_news_links] returns has no URL twice. *)
Theorem discovered_links_are_distinct (u : str) (max_links : Z)
    (links : list str) :
  detect_news_links u max_links = Ok links -> NoDup links.
Proof.
  intros H.
  apply (detect_news_links_set (@NoDup str)) in H
    as (news_links & Hn & ->).
  - eapply Permutation_NoDup; [|exact Hn].
    apply Permutation_sym, str_order_perm.
  - constructor.
  - intros l full_url cond Hl. now apply add_new_NoDup.
  - intros l path full_url Hl. now apply pattern_loop_NoDup.
Qed.

(** X6. [detect_news_links] returns at most [max_links] URLs when
    [max_links] is positive, and at most one otherwise: each pass tests the
    cap after it has added a URL. *)
Theorem discovery_cap (u : str) (max_links : Z) (links : list str) :
  detect_news_links u max_links = Ok links ->
  (len links <= Z.max max_links 1)%Z.
Proof.
  unfold detect_news_links. intros H.
  destruct (fetch_page u) as [html|]; cbn [bind] in H; [|discriminate].
  destruct (no_markup html); [injection H as <-; cbn; lia|].
  destruct (BeautifulSoup (markup html)) as [soup|]; cbn [bind] in H;
    [|discriminate].
  destruct (urlparse u) as [parsed_url|]; cbn [bind] in H; [|discriminate].
  cbv zeta in H.
  match type of H with bind ?c _ = _ =>
    destruct c as [first|] eqn:Hfirst end; cbn [bind] in H; [|discriminate].
  apply main_pass_length in Hfirst; [|cbn; lia].
  assert (Hperm : forall l, len (str_order l) = len l).
  { intros l. unfold len. f_equal.
    apply Permutation_length, str_order_perm. }
  destruct first as [|x first]; cbn [nonempty negb] in H.
  - match type of H with bind ?c _ = _ =>
      destruct c as [second|] eqn:Hsecond end; cbn [bind] in H;
      [|discriminate].
    injection H as <-. rewrite Hperm.
    apply last_resort_length in Hsecond; [exact Hsecond|cbn; lia].
  - cbn [bind] in H. injection H as <-. rewrite Hperm. exact Hfirst.
Qed.

(** X7. The order in which the set of URLs is iterated changes the order
    of the returned list and nothing else: two runs that iterate the set of
    tags alike return the same URLs. *)
Theorem url_order_only_permutes (ho' : HashOrder) (u : str)
    (max_links : Z) (links : list str) :
  (forall l, @tag_order ho l = @tag_order ho' l) ->
  @detect_news_links rt ho u max_links = Ok links ->
  exists links',
    @detect_news_links rt ho' u max_links = Ok links'
    /\ Permutation links links'.
Proof.
  intros Htag. unfold detect_news_links.
  destruct (fetch_page u) as [html|]; cbn [bind]; [|discriminate].
  destruct (no_markup html).
  { intros [= <-]. exists []. split; [reflexivity|constructor]. }
  destruct (BeautifulSoup (markup html)) as [soup|]; cbn [bind];
    [|discriminate].
  destruct (urlparse u) as [parsed_url|]; cbn [bind]; [|discriminate].
  cbv zeta. rewrite <- Htag.
  match goal with |- bind ?c _ = _ -> _ =>
    destruct c as [first|] end; cbn [bind]; [|discriminate].
  match goal with |- bind ?c _ = _ -> _ =>
    destruct c as [second|] end; cbn [bind]; [|discriminate].
  intros [= <-]. exists (@str_order ho' second). split; [reflexivity|].
  eapply Permutation_trans; [apply str_order_perm|].
  apply Permutation_sym, str_order_perm.
Qed.

(** X8. A site that cannot be fetched, or that answers with an empty text,
    gives no links, no article and no records. *)
Theorem unreachable_site_gives_nothing (u : str) (max_news : Z) :
  requests_get u = RequestException \/ requests_get u = Response [] ->
  detect_news_links u (max_news * 2) = Ok []
  /\ parse_news_content u = Ok None
  /\ process_site u max_news = [].
Proof.
  intros H.
  assert (Hd : forall n, detect_news_links u n = Ok []).
  { intros n. unfold detect_news_links, fetch_page.
    destruct H as [-> | ->]; reflexivity. }
  split; [apply Hd|]. split.
  - unfold parse_news_content, fetch_page.
    destruct H as [-> | ->]; reflexivity.
  - unfold process_site. rewrite Hd. reflexivity.
Qed.

End MoreDiscovery.

Section MoreOrchestration.
Context {rt : Runtime}.

(** The records the loop appends: each is what [parse_news_content] gives
    for one of the links, and they come in the order of the links. *)
Lemma news_loop_appends (max_news : Z) (news_links : list str) :
  forall result,
  exists new,
    fst (news_loop news_links max_news result) = result ++ new
    /\ subsequence (map url new) news_links
    /\ Forall (fun item => parse_news_content (url item) = Ok (Some item))
              new.
Proof.
  induction news_links as [|news_url rest IH]; intros result;
    cbn [news_loop].
  - exists []. rewrite app_nil_r. repeat constructor.
  - destruct (parse_news_content news_url) as [[news_data|]|e] eqn:Hp.
    + pose proof (parse_news_content_url _ Hp) as Hurl.
      destruct (len (result ++ [news_data]) >=? max_news)%Z.
      * exists [news_data]. cbn [fst map]. rewrite Hurl.
        split; [reflexivity|]. split; [repeat constructor|].
        constructor; [now rewrite Hurl|constructor].
      * destruct (IH (result ++ [news_data])) as (new & E & Hsub & Hall).
        exists (news_data :: new). rewrite E, <- app_assoc.
        split; [reflexivity|]. cbn [map]. rewrite Hurl.
        split; [now constructor|].
        constructor; [now rewrite Hurl|exact Hall].
    + destruct (IH result) as (new & E & Hsub & Hall).
      exists new. split; [exact E|]. split; [now constructor|exact Hall].
    + exists []. cbn [fst]. rewrite app_nil_r. repeat constructor.
Qed.

Context {ho : HashOrder}.

(** X9. With a positive [max_news], a site gives at most [max_news]
    records. *)
Theorem positive_cap_is_respected (u : str) (max_news : Z) :
  (1 <= max_news)%Z ->
  (len (process_site u max_news) <= max_news)%Z.
Proof.
  intros Hn. pose proof (process_site_length u max_news). lia.
Qed.

(** X10. Every record of a site is what [parse_news_content] returns for
    one of the links that [detect_news_links] found on it. *)
Theorem records_come_from_discovered_links (u : str) (max_news : Z)
    (item : NewsItem) :
  In item (process_site u max_news) ->
  exists news_links,
    detect_news_links u (max_news * 2) = Ok news_links
    /\ In (url item) news_links
    /\ parse_news_content (url item) = Ok (Some item).
Proof.
  intros Hin.
  destruct (process_site_cases u max_news) as [E|(news_links & Hd & E)];
    rewrite E in Hin; [contradiction|].
  destruct (news_loop_appends max_news news_links [])
    as (new & Enew & Hsub & Hall).
  rewrite Enew in Hin. cbn [app] in Hin.
  exists news_links. split; [exact Hd|]. split.
  - apply (@subsequence_In _ _ _ (url item) Hsub). now apply in_map.
  - rewrite Forall_forall in Hall. now apply Hall.
Qed.

(** X11. The records of a site come in the order of the discovered links:
    their URLs are the list of links with some of them left out. *)
Theorem records_follow_discovery_order (u : str) (max_news : Z)
    (news_links : list str) :
  detect_news_links u (max_news * 2) = Ok news_links ->
  subsequence (map url (process_site u max_news)) news_links.
Proof.
  intros Hd.
  destruct (process_site_cases u max_news) as [E|(news_links' & Hd' & E)];
    rewrite E; [constructor|].
  rewrite Hd in Hd'. injection Hd' as <-.
  destruct (news_loop_appends max_news news_links [])
    as (new & Enew & Hsub & _).
  rewrite Enew. exact Hsub.
Qed.

End MoreOrchestration.

(* ================================================================= *)
(** ** The document tree *)

Lemma walk_elem (nm : str) (cl : option (list str)) (at_ : list (str * str))
    (cs : list node) :
  walk (Elem nm cl at_ cs) = walk_children 0 cs.
Proof.
  cbn [walk]. generalize 0%nat.
  induction cs as [|c cs IH]; intros i; [reflexivity|].
  destruct c; cbn [walk_children]; rewrite <- (IH (S i)); reflexivity.
Qed.

Lemma walk_children_In (cs : list node) (d : node) :
  forall i,
    In d (map snd (walk_children i cs))
    <-> exists c, In c cs /\ c <> Gone /\ (d = c \/ In d (descendants c)).
Proof.
  unfold descendants.
  induction cs as [|c cs IH]; intros i.
  - simpl. split; [tauto|intros (c & [] & _)].
  - assert (Hstep :
      In d (map snd (walk_children i (c :: cs)))
      <-> (c <> Gone /\ (d = c \/ In d (map snd (walk c))))
          \/ In d (map snd (walk_children (S i) cs))).
    { destruct c; cbn [walk_children map snd In];
        rewrite ?map_app, ?in_app_iff, ?map_map; cbn [snd];
        try (split; [intros [<-|[H|H]]|intros [[_ [->|H]]|H]];
             auto; left; split; auto; discriminate).
      split; [auto|intros [[Hc _]|H]; [now contradiction Hc|exact H]]. }
    rewrite Hstep, IH. split.
    + intros [[Hc Hd]|(c' & Hin & Hc & Hd)].
      * exists c. split; [now left|auto].
      * exists c'. split; [now right|auto].
    + intros (c' & [<-|Hin] & Hc & Hd); [left; auto|].
      right. exists c'. auto.
Qed.

(** The descendants of a tag: its contents and their descendants. *)
Lemma descendants_elem (nm : str) (cl : option (list str))
    (at_ : list (str * str)) (cs : list node) (d : node) :
  In d (descendants (Elem nm cl at_ cs))
  <-> exists c, In c cs /\ c <> Gone /\ (d = c \/ In d (descendants c)).
Proof.
  unfold descendants at 1. rewrite walk_elem. apply walk_children_In.
Qed.

(** Induction on a document: a tag after its contents. *)
Lemma node_induction (P : node -> Prop) :
  (forall s, P (Text s)) -> (forall s, P (Comment s)) -> P Gone ->
  (forall nm cl at_ cs, Forall P cs -> P (Elem nm cl at_ cs)) ->
  forall n, P n.
Proof.
  intros HText HComment HGone HElem.
  fix IH 1.
  intros [s|s|nm cl at_ cs|];
    [apply HText|apply HComment| |exact HGone].
  apply HElem.
  induction cs as [|c cs IHcs]; constructor; [apply IH|exact IHcs].
Qed.

(** A descendant of a descendant is a descendant. *)
Lemma descendants_trans (n : node) :
  forall c d,
    In c (descendants n) -> In d (descendants c) -> In d (descendants n).
Proof.
  induction n as [s|s| |nm cl at_ cs IH] using node_induction;
    intros c d Hc Hd; try contradiction.
  apply descendants_elem in Hc as (k & Hk & Hgone & Hck).
  apply descendants_elem. exists k. split; [exact Hk|]. split; [exact Hgone|].
  right. destruct Hck as [->|Hck]; [exact Hd|].
  rewrite Forall_forall in IH. exact (IH k Hk c d Hck Hd).
Qed.

Lemma find_all_In (f : node -> bool) (n d : node) :
  In d (find_all f n) <-> In d (descendants n) /\ f d = true.
Proof. unfold find_all. apply filter_In. Qed.

Lemma find_In (f : node -> bool) (n c : node) :
  find f n = Some c -> In c (descendants n) /\ f c = true.
Proof.
  unfold find. intros H. apply find_all_In.
  destruct (find_all f n) as [|d l]; [discriminate|].
  injection H as <-. now left.
Qed.

Section Links.
Context {rt : Runtime}.

Lemma heading_links_are_links (names : list string) (root link : node) :
  In link (heading_links names root) -> link_of root link.
Proof.
  unfold heading_links. rewrite in_flat_map.
  intros (heading & Hh & Hl). apply find_all_In in Hh as [Hh _].
  destruct (find is_link heading) as [l|] eqn:E; [|contradiction].
  destruct Hl as [<-|[]]. apply find_In in E as [Hd Hl].
  split; [exact (descendants_trans _ _ _ Hh Hd)|exact Hl].
Qed.

Lemma container_links_are_links (container link : node) :
  In link (container_links container) -> link_of container link.
Proof.
  unfold container_links. rewrite in_app_iff, filter_In.
  intros [H|[H _]]; [now apply heading_links_are_links in H|].
  now apply find_all_In in H.
Qed.

Lemma page_links_are_links (soup link : node) :
  In link (page_links soup) -> link_of soup link.
Proof.
  unfold page_links. rewrite in_app_iff, filter_In.
  intros [H|[H _]]; [now apply heading_links_are_links in H|].
  now apply find_all_In in H.
Qed.

Lemma candidate_links_are_links (soup link : node) :
  In link (candidate_links soup) -> link_of soup link.
Proof.
  unfold candidate_links. cbv zeta.
  match goal with |- In _ (if ?b then _ else _) -> _ => destruct b end;
    [apply page_links_are_links|].
  rewrite in_flat_map. intros (container & Hc & Hl).
  apply container_links_are_links in Hl as [Hl Hlink].
  split; [|exact Hlink].
  apply descendants_trans with (c := container); [|exact Hl].
  match type of Hc with In _ (if ?b then _ else _) => destruct b end.
  - unfold keyword_containers in Hc. apply filter_In in Hc as [Hc _].
    now apply find_all_In in Hc.
  - apply in_flat_map in Hc as (sel & _ & Hc). unfold select in Hc.
    now apply find_all_In in Hc.
Qed.

Lemma tag_set_In (l : list node) (x : node) :
  forall seen, In x (tag_set l seen) -> In x l.
Proof.
  induction l as [|y l IH]; intros seen; cbn [tag_set]; [tauto|].
  destruct (existsb (node_eqb y) seen).
  - intros H. right. exact (IH _ H).
  - intros [->|H]; [now left|right; exact (IH _ H)].
Qed.

(** A link has its [href]: [link['href']] does not raise. *)
Lemma link_has_href (link : node) :
  is_link link = true -> exists href, attr (py "href") link = Some href.
Proof.
  unfold is_link, has_attr. intros H. apply andb_prop in H as [_ H].
  destruct (attr (py "href") link) as [href|]; [eauto|discriminate].
Qed.

Lemma main_pass_accepts (soup : node) (Q : str -> Prop) (base_url : str)
    (parsed_url : ParseResult) (max_links : Z) (links : list node) :
  accepts soup base_url links Q ->
  forall news_links out,
    main_pass base_url parsed_url max_links links news_links = Ok out ->
    Forall Q news_links -> Forall Q out.
Proof.
  induction links as [|link rest IH]; intros Hacc news_links out H Hn;
    cbn [main_pass] in H.
  - injection H as <-. exact Hn.
  - assert (Hrest : accepts soup base_url rest Q).
    { intros l h f Hin. apply Hacc. now right. }
    unfold getitem in H.
    destruct (attr (py "href") link) as [href|] eqn:Hhref; cbn [bind] in H;
      [|discriminate].
    destruct (skip_href href) eqn:Hskip; [eauto|].
    destruct (urljoin base_url href) as [full_url|] eqn:Hjoin;
      cbn [bind] in H; [|discriminate].
    destruct (urlparse full_url) as [parsed_href|]; cbn [bind] in H;
      [|discriminate].
    destruct (negb (contains (netloc parsed_url) (netloc parsed_href)));
      [eauto|].
    destruct (is_excluded full_url); [eauto|].
    cbv zeta in H.
    pose proof (Hacc link href full_url (or_introl eq_refl) Hhref Hskip Hjoin)
      as Hq.
    match type of H with
    | (if (len ?nl >=? _)%Z then _ else _) = _ =>
        assert (Hnl : Forall Q nl)
    end.
    { match goal with |- Forall _ (if ?b then _ else _) => destruct b end;
        [apply Forall_snoc|]; auto. }
    match type of H with (if ?b then _ else _) = _ => destruct b end;
      [injection H as <-; exact Hnl|eauto].
Qed.

Lemma last_resort_accepts (soup : node) (Q : str -> Prop) (base_url : str)
    (parsed_url : ParseResult) (max_links : Z) (links : list node) :
  accepts soup base_url links Q ->
  forall news_links out,
    last_resort base_url parsed_url max_links links news_links = Ok out ->
    Forall Q news_links -> Forall Q out.
Proof.
  induction links as [|link rest IH]; intros Hacc news_links out H Hn;
    cbn [last_resort] in H.
  - injection H as <-. exact Hn.
  - assert (Hrest : accepts soup base_url rest Q).
    { intros l h f Hin. apply Hacc. now right. }
    unfold getitem in H.
    destruct (attr (py "href") link) as [href|] eqn:Hhref; cbn [bind] in H;
      [|discriminate].
    destruct (skip_href href) eqn:Hskip; [eauto|].
    destruct (urljoin base_url href) as [full_url|] eqn:Hjoin;
      cbn [bind] in H; [|discriminate].
    destruct (urlparse full_url) as [parsed_href|]; cbn [bind] in H;
      [|discriminate].
    destruct (negb (contains (netloc parsed_url) (netloc parsed_href)));
      [eauto|].
    destruct (is_excluded full_url); [eauto|].
    cbv zeta in H.
    pose proof (Hacc link href full_url (or_introl eq_refl) Hhref Hskip Hjoin)
      as Hq.
    assert (Hnl : Forall Q (pattern_loop news_patterns (path_ parsed_href)
                                         full_url news_links)).
    { destruct (pattern_loop_cases news_patterns (path_ parsed_href)
                  full_url news_links) as [->| ->];
        [|apply Forall_snoc]; auto. }
    match type of H with (if ?b then _ else _) = _ => destruct b end;
      [injection H as <-; exact Hnl|eauto].
Qed.

(** A pass over links of the page accepts only their resolved [href]s. *)
Lemma links_accept_resolved (soup : node) (base_url : str)
    (links : list node) :
  (forall link, In link links -> link_of soup link) ->
  accepts soup base_url links (resolved_from soup base_url).
Proof.
  intros Hlinks link href full_url Hin Hhref Hskip Hjoin.
  destruct (Hlinks link Hin) as [Hd Hl].
  exists link, href. auto.
Qed.

(** When [urllib] accepts the [href]s of the links, a pass over them does
    not raise. *)
Lemma main_pass_returns (soup : node) (base_url : str)
    (parsed_url : ParseResult) (max_links : Z) (links : list node) :
  (forall link href,
      link_of soup link -> attr (py "href") link = Some href ->
      skip_href href = false ->
      exists full_url parsed_href,
        urljoin base_url href = Ok full_url
        /\ urlparse full_url = Ok parsed_href) ->
  Forall (link_of soup) links ->
  forall news_links,
  exists out,
    main_pass base_url parsed_url max_links links news_links = Ok out.
Proof.
  intros Hres Hlinks.
  induction Hlinks as [|link rest Hlink _ IH]; intros news_links;
    cbn [main_pass]; [eauto|].
  destruct (link_has_href link (proj2 Hlink)) as (href & Hhref).
  unfold getitem. rewrite Hhref. cbn [bind].
  destruct (skip_href href) eqn:Hskip; [apply IH|].
  destruct (Hres link href Hlink Hhref Hskip)
    as (full_url & parsed_href & -> & Hp).
  cbn [bind]. rewrite Hp. cbn [bind].
  destruct (negb (contains (netloc parsed_url) (netloc parsed_href)));
    [apply IH|].
  destruct (is_excluded full_url); [apply IH|].
  cbv zeta.
  match goal with |- exists _, (if ?b then _ else _) = _ => destruct b end;
    [eauto|apply IH].
Qed.

Lemma last_resort_returns (soup : node) (base_url : str)
    (parsed_url : ParseResult) (max_links : Z) (links : list node) :
  (forall link href,
      link_of soup link -> attr (py "href") link = Some href ->
      skip_href href = false ->
      exists full_url parsed_href,
        urljoin base_url href = Ok full_url
        /\ urlparse full_url = Ok parsed_href) ->
  Forall (link_of soup) links ->
  forall news_links,
  exists out,
    last_resort base_url parsed_url max_links links news_links = Ok out.
Proof.
  intros Hres Hlinks.
  induction Hlinks as [|link rest Hlink _ IH]; intros news_links;
    cbn [last_resort]; [eauto|].
  destruct (link_has_href link (proj2 Hlink)) as (href & Hhref).
  unfold getitem. rewrite Hhref. cbn [bind].
  destruct (skip_href href) eqn:Hskip; [apply IH|].
  destruct (Hres link href Hlink Hhref Hskip)
    as (full_url & parsed_href & -> & Hp).
  cbn [bind]. rewrite Hp. cbn [bind].
  destruct (negb (contains (netloc parsed_url) (netloc parsed_href)));
    [apply IH|].
  destruct (is_excluded full_url); [apply IH|].
  cbv zeta.
  match goal with |- exists _, (if ?b then _ else _) = _ => destruct b end;
    [eauto|apply IH].
Qed.

Context {ho : HashOrder}.

Lemma links_to_check_are_links (soup link : node) :
  In link (tag_order (tag_set (candidate_links soup) [])) ->
  link_of soup link.
Proof.
  intros H. apply (Permutation_in _ (tag_order_perm _)) in H.
  apply tag_set_In in H. now apply candidate_links_are_links.
Qed.

(** X12. Every URL that [detect_news_links] returns is the [href] of an
    [a] tag of the fetched page, resolved against the scheme and network
    location of the site URL; the [href] is not empty and starts neither
    with [#] nor with [javascript:]. *)
Theorem returned_urls_come_from_links (u : str) (max_links : Z)
    (links : list str) (full_url : str) :
  detect_news_links u max_links = Ok links ->
  In full_url links ->
  exists html soup parsed_url,
    fetch_page u = Ok (Some html) /\ BeautifulSoup html = Ok soup
    /\ urlparse u = Ok parsed_url
    /\ resolved_from soup
         (scheme parsed_url ++ py "://" ++ netloc parsed_url) full_url.
Proof.
  unfold detect_news_links. intros H Hin.
  destruct (fetch_page u) as [html|]; cbn [bind] in H; [|discriminate].
  destruct html as [[|c html]|]; cbn [no_markup markup] in H;
    try (injection H as <-; contradiction).
  destruct (BeautifulSoup (c :: html)) as [soup|] eqn:Hsoup;
    cbn [bind] in H; [|discriminate].
  destruct (urlparse u) as [parsed_url|]; cbn [bind] in H; [|discriminate].
  cbv zeta in H.
  exists (c :: html), soup, parsed_url. repeat split; auto.
  set (base := scheme parsed_url ++ py "://" ++ netloc parsed_url) in *.
  change (main_pass ?b ?p ?m (tag_order (tag_set _ [])) [])
    with (main_pass b p m (tag_order (tag_set (candidate_links soup) [])) [])
    in H.
  match type of H with bind ?c _ = _ =>
    destruct c as [first|] eqn:Hfirst end; cbn [bind] in H; [|discriminate].
  apply (@main_pass_accepts soup (resolved_from soup base)) in Hfirst;
    [|apply links_accept_resolved, links_to_check_are_links|constructor].
  assert (Hall : Forall (resolved_from soup base) links).
  { destruct (negb (nonempty first)).
    - match type of H with bind ?c _ = _ =>
        destruct c as [second|] eqn:Hsecond end; cbn [bind] in H;
        [|discriminate].
      injection H as <-.
      apply (@last_resort_accepts soup (resolved_from soup base)) in Hsecond;
        [| |exact Hfirst].
      + eapply Permutation_Forall; [|exact Hsecond].
        apply Permutation_sym, str_order_perm.
      + apply links_accept_resolved. intros link Hl.
        now apply find_all_In in Hl.
    - cbn [bind] in H. injection H as <-.
      eapply Permutation_Forall; [|exact Hfirst].
      apply Permutation_sym, str_order_perm. }
  rewrite Forall_forall in Hall. now apply Hall.
Qed.

(** X13. [detect_news_links] raises only when the fetch, the parser or
    [urllib] raises: when the page is fetched and parsed, [urlparse]
    accepts the site URL, and [urljoin] and [urlparse] accept the [href]s
    of the links of the page that are not skipped, it returns a list.  The
    [href] of every link it looks at is there. *)
Theorem discovery_raises_only_with_the_libraries (u : str) (max_links : Z)
    (html : str) (soup : node) (parsed_url : ParseResult) :
  fetch_page u = Ok (Some html) ->
  BeautifulSoup html = Ok soup ->
  urlparse u = Ok parsed_url ->
  (forall link href,
      In link (descendants soup) -> is_link link = true ->
      attr (py "href") link = Some href ->
      skip_href href = false ->
      exists full_url parsed_href,
        urljoin (scheme parsed_url ++ py "://" ++ netloc parsed_url) href
        = Ok full_url
        /\ urlparse full_url = Ok parsed_href) ->
  exists links, detect_news_links u max_links = Ok links.
Proof.
  intros Hf Hsoup Hparse Hres. unfold detect_news_links.
  rewrite Hf. cbn [bind markup].
  destruct (no_markup (Some html)); [eauto|].
  rewrite Hsoup. cbn [bind]. rewrite Hparse. cbn [bind]. cbv zeta.
  set (base := scheme parsed_url ++ py "://" ++ netloc parsed_url) in *.
  change (main_pass ?b ?p ?m (tag_order (tag_set _ [])) [])
    with (main_pass b p m (tag_order (tag_set (candidate_links soup) [])) []).
  assert (Hres' : forall link href,
             link_of soup link -> attr (py "href") link = Some href ->
             skip_href href = false ->
             exists full_url parsed_href,
               urljoin base href = Ok full_url
               /\ urlparse full_url = Ok parsed_href).
  { intros link href [Hd Hl]. now apply Hres. }
  assert (Hlinks : Forall (link_of soup)
                          (tag_order (tag_set (candidate_links soup) []))).
  { apply Forall_forall. intros link Hl.
    now apply links_to_check_are_links. }
  assert (Hall : Forall (link_of soup) (find_all is_link soup)).
  { apply Forall_forall. intros link Hl. now apply find_all_In in Hl. }
  destruct (@main_pass_returns soup base parsed_url max_links _ Hres' Hlinks
              []) as (first & ->).
  cbn [bind].
  destruct (negb (nonempty first)); cbn [bind]; [|eauto].
  destruct (@last_resort_returns soup base parsed_url max_links _ Hres' Hall
              first) as (second & ->).
  cbn [bind]. eauto.
Qed.

(** X14. A page without any [a] tag that has an [href] gives no links. *)
Theorem page_without_links_gives_nothing (u : str) (max_links : Z)
    (html : str) (soup : node) (parsed_url : ParseResult) :
  fetch_page u = Ok (Some html) ->
  BeautifulSoup html = Ok soup ->
  urlparse u = Ok parsed_url ->
  find_all is_link soup = [] ->
  detect_news_links u max_links = Ok [].
Proof.
  intros Hf Hs Hp Hnone. unfold detect_news_links.
  rewrite Hf. cbn [bind markup].
  destruct (no_markup (Some html)); [reflexivity|].
  rewrite Hs. cbn [bind]. rewrite Hp. cbn [bind]. cbv zeta.
  change (main_pass ?b ?p ?m (tag_order (tag_set _ [])) [])
    with (main_pass b p m (tag_order (tag_set (candidate_links soup) [])) []).
  assert (Hcand : tag_order (tag_set (candidate_links soup) []) = []).
  { destruct (tag_order (tag_set (candidate_links soup) [])) as [|link l]
      eqn:E; [reflexivity|].
    assert (Hl : link_of soup link).
    { apply links_to_check_are_links. rewrite E. now left. }
    apply find_all_In in Hl. rewrite Hnone in Hl. contradiction. }
  rewrite Hcand, Hnone. cbn [main_pass bind nonempty negb last_resort].
  f_equal. apply Permutation_nil. apply Permutation_sym, str_order_perm.
Qed.

End Links.

(* ================================================================= *)
(** ** Removing subtrees *)

Lemma same_tag_refl (d : node) : same_tag d d.
Proof. repeat split. Qed.

Lemma same_tag_trans (a b c : node) :
  same_tag a b -> same_tag b c -> same_tag a c.
Proof.
  intros (H1 & H2 & H3) (H4 & H5 & H6).
  split; [congruence|]. split; [congruence|].
  intros key. now rewrite H3.
Qed.

Lemma matches_same_tag (sel : selector) (d d0 : node) :
  same_tag d d0 -> matches sel d = matches sel d0.
Proof.
  intros (Hn & Hc & Ha). unfold matches.
  induction sel as [|s sel IH]; cbn [existsb]; [reflexivity|].
  rewrite IH. f_equal.
  destruct s as [nm|c|nm c|key v];
    unfold matches1, is_tag, has_class, attr_is;
    now rewrite ?Hn, ?Hc, ?Ha.
Qed.

Lemma nth_error_update_nth {A} (f : A -> A) (l : list A) :
  forall i j,
    nth_error (update_nth i f l) j
    = if Nat.eqb i j then option_map f (nth_error l j) else nth_error l j.
Proof.
  induction l as [|x l IH]; intros i j.
  - destruct i, j; cbn; try reflexivity; now destruct (Nat.eqb _ _).
  - destruct i as [|i], j as [|j]; cbn [update_nth nth_error Nat.eqb];
      try reflexivity.
    apply IH.
Qed.

(** The path of a descendant resolves to it. *)
Lemma walk_children_resolve (cs : list node) :
  Forall (fun c => forall q d, In (q, d) (walk c) <->
                               q <> [] /\ resolve c q = Some d) cs ->
  forall i q d,
    In (q, d) (walk_children i cs)
    <-> exists j q', q = (i + j)%nat :: q'
                     /\ match nth_error cs j with
                        | Some c => resolve c q' = Some d
                        | None => False
                        end.
Proof.
  induction 1 as [|c cs Hc _ IH]; intros i q d.
  - cbn [walk_children In]. split; [tauto|].
    intros (j & q' & _ & H). now destruct j.
  - assert (Hhere : forall q',
              (q' = [] /\ d = c /\ c <> Gone) \/ In (q', d) (walk c)
              <-> resolve c q' = Some d).
    { intros q'. rewrite Hc. destruct q' as [|k q'].
      - cbn [resolve]. split.
        + intros [(_ & -> & Hg)|[Hq _]]; [|now contradiction Hq].
          destruct c; try reflexivity. now contradiction Hg.
        + intros H. left. destruct c; try discriminate;
            injection H as <-; repeat split; discriminate.
      - split; [intros [(Hq & _)|[_ H]]; [discriminate|exact H]|].
        intros H. right. split; [discriminate|exact H]. }
    assert (Hstep :
      In (q, d) (walk_children i (c :: cs))
      <-> (exists q', q = i :: q'
                      /\ ((q' = [] /\ d = c /\ c <> Gone)
                          \/ In (q', d) (walk c)))
          \/ In (q, d) (walk_children (S i) cs)).
    { assert (Hmap : forall w,
                In (q, d) (map (fun pd => (i :: fst pd, snd pd)) w)
                <-> exists q', q = i :: q' /\ In (q', d) w).
      { intros w. rewrite in_map_iff. split.
        - intros ([q' d'] & [= <- <-] & Hin). eauto.
        - intros (q' & -> & Hin). exists (q', d). auto. }
      destruct c; cbn [walk_children In]; rewrite ?in_app_iff, ?Hmap;
        try (split;
             [intros [[= <- <-]|[(q' & -> & Hw)|Hr]];
              [left; exists []; split; [reflexivity|left;
                 repeat split; discriminate]
              |left; exists q'; auto|now right]
             |intros [(q' & -> & [(-> & -> & _)|Hw])|Hr];
              [now left|right; left; eauto|right; now right]]).
      split; [now right|].
      intros [(q' & _ & [(_ & _ & Hg)|Hw])|Hr];
        [now contradiction Hg|contradiction|exact Hr]. }
    rewrite Hstep, IH. split.
    + intros [(q' & -> & Hq)|(j & q' & -> & Hq)].
      * exists 0%nat, q'. rewrite Nat.add_0_r. split; [reflexivity|].
        cbn [nth_error]. now apply Hhere.
      * exists (S j), q'. split; [f_equal; lia|exact Hq].
    + intros ([|j] & q' & -> & Hq); cbn [nth_error] in Hq.
      * left. exists q'. rewrite Nat.add_0_r. split; [reflexivity|].
        now apply Hhere.
      * right. exists j, q'. split; [f_equal; lia|exact Hq].
Qed.

Lemma walk_resolve (n : node) :
  forall q d, In (q, d) (walk n) <-> q <> [] /\ resolve n q = Some d.
Proof.
  induction n as [s|s| |nm cl at_ cs IH] using node_induction; intros q d;
    try (cbn [walk In]; split; [tauto|];
         intros [Hq H]; destruct q; [now contradiction Hq|discriminate]).
  rewrite walk_elem, (walk_children_resolve IH). split.
  - intros (j & q' & -> & H). split; [discriminate|].
    cbn [resolve Nat.add]. destruct (nth_error cs j); [exact H|contradiction].
  - intros [Hq H]. destruct q as [|j q']; [now contradiction Hq|].
    exists j, q'. split; [reflexivity|].
    cbn [resolve] in H. destruct (nth_error cs j); [exact H|discriminate].
Qed.

(** [decompose] only takes away: a reference that resolves afterwards
    resolved before, to a tag with the same name and attributes. *)
Lemma resolve_decompose (r : path) :
  forall doc q d,
    resolve (decompose doc r) q = Some d ->
    exists d0, resolve doc q = Some d0 /\ same_tag d d0.
Proof.
  induction r as [|i r IH]; intros doc q d H.
  - cbn [decompose] in H. destruct q; discriminate.
  - destruct doc as [s|s|nm cl at_ cs|]; cbn [decompose] in H;
      try (exists d; split; [exact H|apply same_tag_refl]).
    destruct q as [|j q].
    + cbn [resolve] in *. injection H as <-. eexists. split; [reflexivity|].
      repeat split.
    + cbn [resolve] in *. rewrite nth_error_update_nth in H.
      destruct (Nat.eqb i j); [|eauto].
      * destruct (nth_error cs j) as [c|]; cbn [option_map] in H;
          [eauto|discriminate].
      * exists d. split; [exact H|apply same_tag_refl].
Qed.

(** The decomposed tag is gone. *)
Lemma resolve_decomposed (r : path) :
  forall doc, resolve (decompose doc r) r = None.
Proof.
  induction r as [|i r IH]; intros doc; [reflexivity|].
  destruct doc as [s|s|nm cl at_ cs|]; try reflexivity.
  cbn [decompose resolve]. rewrite nth_error_update_nth, Nat.eqb_refl.
  destruct (nth_error cs i); cbn [option_map]; [apply IH|reflexivity].
Qed.

Lemma resolve_fold_decompose (rs : list path) :
  forall doc q d,
    resolve (fold_left decompose rs doc) q = Some d ->
    ~ In q rs /\ exists d0, resolve doc q = Some d0 /\ same_tag d d0.
Proof.
  induction rs as [|r rs IH]; intros doc q d H; cbn [fold_left] in H.
  - split; [tauto|]. exists d. split; [exact H|apply same_tag_refl].
  - apply IH in H as (Hnot & d1 & H1 & Hs1).
    split.
    + intros [->|Hin]; [|contradiction].
      rewrite resolve_decomposed in H1. discriminate.
    + apply resolve_decompose in H1 as (d0 & H0 & Hs0).
      exists d0. split; [exact H0|exact (same_tag_trans Hs1 Hs0)].
Qed.

Lemma resolve_app (p : path) :
  forall doc q,
    q <> [] ->
    resolve doc (p ++ q)
    = match resolve doc p with
      | Some c => resolve c q
      | None => None
      end.
Proof.
  induction p as [|i p IH]; intros doc q Hq; cbn [app resolve].
  - destruct doc; try reflexivity. destruct q; [now contradiction Hq|].
    reflexivity.
  - destruct doc as [s|s|nm cl at_ cs|]; try reflexivity.
    destruct (nth_error cs i); [now apply IH|reflexivity].
Qed.

(** X15. After [remove_navigation], no tag below the container matches the
    navigation selector: what [find_all('p')] then sees has no [nav],
    [aside], [footer], [header] or sharing block above it inside the
    container. *)
Theorem navigation_is_gone (soup : node) (container : path) :
  find_all_at (matches navigation_selector)
              (remove_navigation soup container) container = [].
Proof.
  set (f := matches navigation_selector).
  unfold remove_navigation. fold f.
  set (rs := find_all_at f soup container).
  unfold find_all_at at 1.
  destruct (resolve (fold_left decompose rs soup) container) as [c'|] eqn:Hc';
    [|reflexivity].
  destruct (filter (fun pd => f (snd pd)) (walk c')) as [|[q d] l] eqn:Hfil;
    [reflexivity|exfalso].
  assert (Hin : In (q, d) (filter (fun pd => f (snd pd)) (walk c')))
    by (rewrite Hfil; now left).
  apply filter_In in Hin as [Hw Hf]. cbn [snd] in Hf.
  apply walk_resolve in Hw as [Hq Hr].
  assert (Habs : resolve (fold_left decompose rs soup) (container ++ q)
                 = Some d).
  { rewrite resolve_app by exact Hq. now rewrite Hc'. }
  apply resolve_fold_decompose in Habs as (Hnot & d0 & H0 & Hs).
  apply Hnot. unfold rs, find_all_at.
  rewrite resolve_app in H0 by exact Hq.
  destruct (resolve soup container) as [c|]; [|discriminate].
  apply in_map_iff. exists (q, d0). split; [reflexivity|].
  apply filter_In. split.
  - apply walk_resolve. auto.
  - cbn [snd]. unfold f in *. now rewrite <- (matches_same_tag _ Hs).
Qed.

(* ================================================================= *)
(** ** The order of the body strategies *)

Lemma filter_paragraphs_long (doc : node) (paragraphs : list path)
    (t : str) :
  In t (filter_paragraphs doc paragraphs) -> (20 < len t)%Z.
Proof.
  unfold filter_paragraphs. rewrite in_map_iff.
  intros (p & <- & Hin). apply filter_In in Hin as [_ Hlen].
  now apply Z.gtb_lt in Hlen.
Qed.

Lemma join_nonempty (sep : str) (l : list str) :
  l <> [] -> (forall t, In t l -> (20 < len t)%Z) ->
  nonempty (join sep l) = true.
Proof.
  destruct l as [|x l]; [congruence|]. intros _ Hlong.
  assert (Hx : (20 < len x)%Z) by (apply Hlong; now left).
  destruct x as [|c x]; [cbn in Hx; lia|].
  destruct l; reflexivity.
Qed.

Lemma container_loop_skips (before : list (option path))
    (rest : list (option path)) (st : body_state) :
  Forall (fun x => x = None) before ->
  container_loop (before ++ rest) st = container_loop rest st.
Proof.
  induction 1 as [|x before -> _ IH]; [reflexivity|exact IH].
Qed.

(** X16. When the first container that the page has survives the filter
    with at least one paragraph, the body text is taken from it: the later
    containers, the [main]/[body] fallback and the whole-page fallback are
    not used, and the uniqueness check counts its paragraphs. *)
Theorem first_container_with_text_wins (soup : node)
    (before : list (option path)) (container : path)
    (rest : list (option path)) :
  content_containers soup = before ++ Some container :: rest ->
  Forall (fun x => x = None) before ->
  survivors (remove_navigation soup container) container <> [] ->
  content_text (find_content soup)
  = join (py " ") (survivors (remove_navigation soup container) container)
  /\ counted (find_content soup)
     = survivors (remove_navigation soup container) container
  /\ soup_ (find_content soup) = remove_navigation soup container.
Proof.
  intros Hc Hbefore Hsurv. unfold find_content.
  rewrite Hc, (container_loop_skips _ _ Hbefore). cbn [container_loop soup_].
  unfold survivors in Hsurv |- *.
  set (doc := remove_navigation soup container) in *.
  destruct (find_all_at is_p doc container) as [|p ps] eqn:Hps;
    [now contradiction Hsurv|]. cbn [nonempty].
  destruct (filter_paragraphs doc (p :: ps)) as [|t ts] eqn:Hfp;
    [now contradiction Hsurv|]. cbn [nonempty].
  assert (Hne : nonempty (join (py " ") (t :: ts)) = true).
  { apply join_nonempty; [discriminate|].
    intros t' Hin. rewrite <- Hfp in Hin.
    now apply filter_paragraphs_long in Hin. }
  unfold all_paragraphs, main_or_body, counted. cbn [content_text].
  rewrite Hne. cbn [negb content_text]. rewrite Hne. cbn [negb].
  repeat split.
Qed.








Section BodySource.
Context {rt : Runtime}.


End BodySource.

(* ================================================================= *)
(** ** The article patterns *)

Section Patterns.
Context {rt : Runtime}.

Lemma search_app (p : pattern) (a s : str) :
  match_here p s = true -> search p (a ++ s) = true.
Proof.
  intros H. induction a as [|c a IH]; cbn [app].
  - destruct s; cbn [search]; now rewrite H.
  - cbn [search]. rewrite IH. apply orb_true_r.
Qed.

Lemma match_piece_done (a : atom) (hi : option nat) (k : str -> bool)
    (s : str) :
  k s = true -> match_piece a 0 hi k s = true.
Proof. intros H. destruct s; cbn [match_piece]; now rewrite H. Qed.

Lemma match_piece_chr (c : N) (k : str -> bool) (s : str) :
  match_piece (Chr c) 1 (Some 1%nat) k (c :: s) = k s.
Proof.
  cbn [match_piece atom_ok Nat.pred option_map orb]. rewrite N.eqb_refl.
  destruct s; cbn [match_piece andb]; apply orb_false_r.
Qed.

Lemma match_here_lit (w : string) (p : pattern) (s : str) :
  match_here (lit w ++ p) (py w ++ s) = match_here p s.
Proof.
  unfold lit. induction (py w) as [|c cs IH]; [reflexivity|].
  cbn [map app]. change (match_here (?pc :: ?p') ?x)
    with (match_piece (what pc) (at_least pc) (at_most pc) (match_here p') x).
  cbn [what at_least at_most]. rewrite match_piece_chr. exact IH.
Qed.

(** X17. A path that contains [/news/] followed by a decimal digit matches
    one of the article patterns. *)
Theorem news_id_path_is_article_shaped (a b : str) (d : N) :
  isdecimal d = true ->
  existsb (fun pattern => search pattern (a ++ py "/news/" ++ d :: b))
          news_patterns = true.
Proof.
  intros Hd. unfold news_patterns. cbn [existsb].
  rewrite (@search_app (lit "/news/" ++ rep_from Digit 1) a
             (py "/news/" ++ d :: b)).
  - now rewrite orb_true_r.
  - rewrite match_here_lit. unfold rep_from.
    cbn [match_here what at_least at_most match_piece atom_ok Nat.pred
         option_map orb].
    rewrite Hd. cbn [andb]. now apply match_piece_done.
Qed.

End Patterns.

(* ================================================================= *)
(** ** The further properties at concrete pages *)

Lemma urlparse_ref_returns (x : str) : exists r, urlparse_ref x = Ok r.
Proof.
  unfold urlparse_ref. destruct (split_scheme x) as [sch rest].
  match goal with |- context [let (_, _) := ?e in _] => destruct e end.
  eexists. reflexivity.
Qed.

Lemma urljoin_ref_returns (b h : str) : exists r, urljoin_ref b h = Ok r.
Proof.
  unfold urljoin_ref. destruct b as [|c b]; [eauto|].
  destruct h as [|c' h]; [eauto|].
  destruct (split_scheme (c :: b)) as [bscheme brest].
  destruct (split_scheme (c' :: h)) as [sch rest].
  repeat match goal with
         | |- context [if ?e then _ else _] => destruct e
         end; eauto.
Qed.

(** X1 on the first article. *)
Lemma record_has_its_url_and_a_title_witness :
  url first_item = first_article /\ title first_item <> [].
Proof.
  apply (@record_has_its_url_and_a_title web first_article first_item).
  vm_compute; reflexivity.
Defined.

(** X2 on a page with a heading, an [og:title] and a document title. *)
Lemma first_content_attribute_is_the_title_witness :
  @parse_news_content wider_web meta_page = Ok (Some meta_item)
  /\ find_title meta_soup = get og_title (py "content") (py "").
Proof.
  split; [vm_compute; reflexivity|].
  apply (@first_content_attribute_is_the_title meta_soup
           [Some (el "h1" [Text (py "Breaking headline")]); None]
           og_title
           [None; Some (el "title" [Text (py "Example News")])]).
  - vm_compute; reflexivity.
  - intros c' [H|[H|[]]]; [|discriminate H].
    injection H as <-. vm_compute; reflexivity.
  - vm_compute; discriminate.
Defined.

(** X3 on the first article. *)
Lemma good_page_is_accepted_witness :
  @parse_news_content web first_article
  = Ok (Some {| url := first_article;
                title := find_title article_soup;
                content := content_text (find_content article_soup) |}).
Proof.
  apply (@good_page_is_accepted web first_article article_html article_soup).
  - vm_compute; reflexivity.
  - vm_compute; discriminate.
  - vm_compute; reflexivity.
  - vm_compute; discriminate.
  - vm_compute; reflexivity.
  - vm_compute; discriminate.
Defined.

(** X4 on the links of the front page. *)
Lemma last_resort_accepts_only_patterns_witness :
  @article_shaped web first_article.
Proof.
  apply (@last_resort_accepts_only_patterns web site example_com_parsed 10
           (find_all is_link front_soup)
           [first_article; second_article; foreign_article]).
  - vm_compute; reflexivity.
  - left. reflexivity.
Defined.

(** X5 on a front page that repeats a link. *)
Lemma discovered_links_are_distinct_witness :
  map (fun link => get link (py "href") (py ""))
      (find_all is_link double_soup)
  = [py "/news/12345"; py "/news/12345"; py "/news/67890"]
  /\ NoDup [py "https://double.test/news/12345";
            py "https://double.test/news/67890"].
Proof.
  split; [vm_compute; reflexivity|].
  apply (@discovered_links_are_distinct wider_web inserted double_site 10).
  vm_compute; reflexivity.
Defined.

(** X6 on the front page, with room for two links out of three. *)
Lemma discovery_cap_witness :
  (len [first_article; second_article] <= Z.max 2 1)%Z.
Proof.
  apply (@discovery_cap web inserted site 2).
  vm_compute; reflexivity.
Defined.

(** X7 for the insertion order and its reverse. *)
Lemma url_order_only_permutes_witness :
  exists links',
    @detect_news_links web reversed site 10 = Ok links'
    /\ Permutation [first_article; second_article; foreign_article] links'.
Proof.
  apply (@url_order_only_permutes web inserted reversed site 10).
  - intros l. reflexivity.
  - vm_compute; reflexivity.
Defined.

(** X8 on a site that does not answer. *)
Lemma unreachable_site_gives_nothing_witness :
  @detect_news_links web inserted down_site (5 * 2) = Ok []
  /\ @parse_news_content web down_site = Ok None
  /\ @process_site web inserted down_site 5 = [].
Proof.
  apply (@unreachable_site_gives_nothing web inserted down_site 5).
  left. vm_compute; reflexivity.
Defined.

(** X9 on the example site with room for one record. *)
Lemma positive_cap_is_respected_witness :
  (len (@process_site web inserted site 1) <= 1)%Z.
Proof.
  apply (@positive_cap_is_respected web inserted site 1). lia.
Defined.

(** X10 on the first record of the example site. *)
Lemma records_come_from_discovered_links_witness :
  exists news_links,
    @detect_news_links web inserted site (5 * 2) = Ok news_links
    /\ In (url first_item) news_links
    /\ @parse_news_content web (url first_item) = Ok (Some first_item).
Proof.
  apply (@records_come_from_discovered_links web inserted site 5 first_item).
  vm_compute. left. reflexivity.
Defined.

(** X11 on the example site: the third link gives no record. *)
Lemma records_follow_discovery_order_witness :
  subsequence (map url (@process_site web inserted site 5))
              [first_article; second_article; foreign_article].
Proof.
  apply (@records_follow_discovery_order web inserted site 5).
  vm_compute; reflexivity.
Defined.

(** X12 on the front page. *)
Lemma returned_urls_come_from_links_witness :
  exists html soup parsed_url,
    @fetch_page web site = Ok (Some html)
    /\ @BeautifulSoup web html = Ok soup
    /\ @urlparse web site = Ok parsed_url
    /\ @resolved_from web soup
         (scheme parsed_url ++ py "://" ++ netloc parsed_url) second_article.
Proof.
  apply (@returned_urls_come_from_links web inserted site 10
           [first_article; second_article; foreign_article]).
  - vm_compute; reflexivity.
  - right. left. reflexivity.
Defined.

(** X13 on the front page. *)
Lemma discovery_raises_only_with_the_libraries_witness :
  exists links, @detect_news_links web inserted site 10 = Ok links.
Proof.
  apply (@discovery_raises_only_with_the_libraries web inserted site 10
           front_html front_soup example_com_parsed).
  - vm_compute; reflexivity.
  - vm_compute; reflexivity.
  - vm_compute; reflexivity.
  - intros link href _ _ _ _.
    destruct (urljoin_ref_returns
                (scheme example_com_parsed ++ py "://"
                 ++ netloc example_com_parsed) href) as (full_url & Hj).
    destruct (urlparse_ref_returns full_url) as (parsed_href & Hp).
    exists full_url, parsed_href. split; [exact Hj|exact Hp].
Defined.

(** X14 on an article page, which has no link, taken as a site. *)
Lemma page_without_links_gives_nothing_witness :
  @detect_news_links web inserted first_article 10 = Ok [].
Proof.
  apply (@page_without_links_gives_nothing web inserted first_article 10
           article_html article_soup
           {| scheme := py "https"; netloc := py "example.com";
              path_ := py "/news/12345" |}).
  - vm_compute; reflexivity.
  - vm_compute; reflexivity.
  - vm_compute; reflexivity.
  - vm_compute; reflexivity.
Defined.

(** X16 on the first article, whose [article] tag is its first
    container. *)
Lemma first_container_with_text_wins_witness :
  content_text (find_content article_soup)
  = join (py " ")
      (survivors (remove_navigation article_soup [0; 1; 1]%nat)
                 [0; 1; 1]%nat)
  /\ counted (find_content article_soup)
     = survivors (remove_navigation article_soup [0; 1; 1]%nat)
                 [0; 1; 1]%nat
  /\ soup_ (find_content article_soup)
     = remove_navigation article_soup [0; 1; 1]%nat.
Proof.
  apply (@first_container_with_text_wins article_soup []
           [0; 1; 1]%nat [None; None; None]).
  - vm_compute; reflexivity.
  - constructor.
  - vm_compute; discriminate.
Defined.

(** X17 on [/news/777]. *)
Lemma news_id_path_is_article_shaped_witness :
  existsb (fun pattern =>
             @search web pattern (py "" ++ py "/news/" ++ 55%N :: py "77"))
          news_patterns = true.
Proof.
  apply (@news_id_path_is_article_shaped web (py "") (py "77") 55%N).
  reflexivity.
Defined.


(* ================================================================= *)
(** ** Runs that iterate the sets in different orders *)




Section Runs.
Context {rt : Runtime}.








End Runs.

